(** * Chart inference, session identifier and start-up scripts

    A shallow embedding of three pieces of the hostel-management agent:

    - [ChartView] (frontend/src/ChartView.jsx): the chart-type inferencer,
    - [getSessionId] (frontend/src/Chat.jsx): the client session identifier,
    - the two start-up shell scripts (entrypoint and start.sh).

    JavaScript values are modelled as the code sees them: Numbers are IEEE 754
    binary64 floats (Rocq's primitive floats), strings are sequences of code
    units (here: code units below 256), [null] and [undefined] are distinct
    values, and a [TypeError] is an explicit outcome. *)

From Stdlib Require Import Floats ZArith Uint63 Ascii String List Bool Lia.
From Stdlib Require Import DecimalString.
From Stdlib Require DecimalN DecimalPos.
From stdpp Require Import gmap strings list.

Local Open Scope string_scope.
Local Open Scope Z_scope.

(* ===================================================================== *)
(** ** JavaScript primitives used by the front end *)
(* ===================================================================== *)

Module Js.

(** The primitive values a result-set cell can hold after [JSON.parse]
    (objects and arrays as cell values are outside the data model), plus
    [undefined], which a property read yields for an absent key. *)
Inductive Value : Type :=
| Null
| Undefined
| Bool (b : bool)
| Num (x : float)
| Str (s : string).

(** [isNaN(x)] on a Number. *)
Definition isNaN (x : float) : bool := negb (PrimFloat.eqb x x).

(** Exceptions the modelled code can raise. *)
Inductive Error : Type :=
| TypeError
| StorageError.

(** Outcome of running a piece of JavaScript: a value, or a thrown error. *)
Inductive Completion (A : Type) : Type :=
| Normal (a : A)
| Throw (e : Error).
Arguments Normal {A} a.
Arguments Throw {A} e.

Definition ret {A} (a : A) : Completion A := Normal a.

Definition bind {A B} (m : Completion A) (k : A -> Completion B) : Completion B :=
  match m with
  | Normal a => k a
  | Throw e => Throw e
  end.

Notation "'do' x <- m ; k" := (bind m (fun x => k))
  (at level 10, x name, m at level 100, k at level 200).

(** [for (const x of l)] with a loop-carried state. *)
Fixpoint for_of {A S} (l : list A) (body : S -> A -> Completion S) (s : S)
  : Completion S :=
  match l with
  | [] => ret s
  | x :: l' => do s' <- body s x ; for_of l' body s'
  end.

(** [l.map(f)] where the callback may throw. *)
Fixpoint array_map {A B} (f : A -> Completion B) (l : list A)
  : Completion (list B) :=
  match l with
  | [] => ret []
  | x :: l' => do y <- f x ; do ys <- array_map f l' ; ret (y :: ys)
  end.

(** *** Decimal rendering of non-negative integers *)

Definition dec (n : Z) : string := NilZero.string_of_uint (N.to_uint (Z.to_N n)).

Fixpoint zeros (n : nat) : string :=
  match n with
  | O => ""
  | S n' => String "0" (zeros n')
  end.

(** *** Rounding an exact positive rational to binary64 *)

(** [p / (q * 2^e)] as a numerator and a denominator. *)
Definition scale2 (p q e : Z) : Z * Z :=
  if 0 <=? e then (p, q * 2 ^ e) else (p * 2 ^ (- e), q).

(** Round-to-nearest, ties-to-even, of [p / q] for [p, q > 0].  The binary
    exponent [e] is chosen so that the integer significand has 53 bits, and is
    not taken below the subnormal exponent -1074. *)
Definition round_ratio (p q : Z) : float :=
  let e0 := Z.log2 p - Z.log2 q - 52 in
  let '(n0, d0) := scale2 p q e0 in
  let e1 := if n0 / d0 <? 2 ^ 52 then e0 - 1 else e0 in
  let e := Z.max e1 (-1074) in
  let '(n, d) := scale2 p q e in
  let m := n / d in
  let r := n mod d in
  let up := (d <? 2 * r) || ((d =? 2 * r) && Z.odd m) in
  let m' := if up then m + 1 else m in
  Z.ldexp (PrimFloat.of_uint63 (Uint63.of_Z m')) e.

(** The Number nearest to [m * 10^e10], for a mantissa [m >= 0] written with
    [len] decimal digits.  Magnitudes certainly above the largest double or
    below half the smallest subnormal are answered without building the
    power of ten. *)
Definition decimal_to_float (m : Z) (len : Z) (e10 : Z) : float :=
  if m =? 0 then 0%float
  else if 309 <=? e10 then infinity
  else if len + e10 <=? -324 then 0%float
  else if 0 <=? e10 then round_ratio (m * 10 ^ e10) 1
  else round_ratio m (10 ^ (- e10)).

(** *** [StringToNumber]: the string case of [Number(v)] *)

Definition code (a : ascii) : Z := Z.of_nat (nat_of_ascii a).

(** StrWhiteSpaceChar, restricted to code units below 256:
    TAB, LF, VT, FF, CR, SP and NBSP. *)
Definition is_ws (a : ascii) : bool :=
  let c := code a in
  ((9 <=? c) && (c <=? 13)) || (c =? 32) || (c =? 160).

Fixpoint drop_ws (l : list ascii) : list ascii :=
  match l with
  | a :: l' => if is_ws a then drop_ws l' else l
  | [] => []
  end.

Definition trim (l : list ascii) : list ascii :=
  rev (drop_ws (rev (drop_ws l))).

(** Value of a digit in the given radix, if it is one. *)
Definition digit_of (radix : Z) (a : ascii) : option Z :=
  let c := code a in
  let v := if (48 <=? c) && (c <=? 57) then c - 48
           else if (97 <=? c) && (c <=? 102) then c - 87
           else if (65 <=? c) && (c <=? 70) then c - 55
           else 99 in
  if v <? radix then Some v else None.

(** Longest prefix of digits, with the remaining input. *)
Fixpoint span_digits (radix : Z) (l : list ascii) : list Z * list ascii :=
  match l with
  | a :: l' =>
      match digit_of radix a with
      | Some d => let '(ds, rest) := span_digits radix l' in (d :: ds, rest)
      | None => ([], l)
      end
  | [] => ([], [])
  end.

Definition digits_value (radix : Z) (ds : list Z) : Z :=
  fold_left (fun acc d => radix * acc + d) ds 0.

Definition len {A} (l : list A) : Z := Z.of_nat (List.length l).

(** ExponentPart (optional): [e] or [E], an optional sign, digits, and
    nothing after. *)
Definition parse_exponent (l : list ascii) : option Z :=
  match l with
  | [] => Some 0
  | a :: l1 =>
      if (code a =? 101) || (code a =? 69) then
        let '(neg, l2) :=
          match l1 with
          | b :: l2 =>
              if code b =? 45 then (true, l2)
              else if code b =? 43 then (false, l2)
              else (false, l1)
          | [] => (false, l1)
          end in
        match span_digits 10 l2 with
        | ((_ :: _) as ds, []) =>
            let v := digits_value 10 ds in
            Some (if neg then - v else v)
        | _ => None
        end
      else None
  end.

(** StrUnsignedDecimalLiteral: [Infinity], [d+ . d* exp?], [. d+ exp?] or
    [d+ exp?].  The result is the unsigned Number. *)
Definition parse_unsigned_decimal (l : list ascii) : option float :=
  if String.eqb (string_of_list_ascii l) "Infinity" then Some infinity else
  let '(ds1, rest) := span_digits 10 l in
  match ds1, rest with
  | _ :: _, dot :: r2 =>
      if code dot =? 46 then
        let '(ds2, r3) := span_digits 10 r2 in
        match parse_exponent r3 with
        | Some x =>
            Some (decimal_to_float (digits_value 10 (ds1 ++ ds2))
                                   (len (ds1 ++ ds2)) (x - len ds2))
        | None => None
        end
      else
        match parse_exponent rest with
        | Some x => Some (decimal_to_float (digits_value 10 ds1) (len ds1) x)
        | None => None
        end
  | _ :: _, [] => Some (decimal_to_float (digits_value 10 ds1) (len ds1) 0)
  | [], dot :: r2 =>
      if code dot =? 46 then
        match span_digits 10 r2 with
        | ((_ :: _) as ds2, r3) =>
            match parse_exponent r3 with
            | Some x =>
                Some (decimal_to_float (digits_value 10 ds2) (len ds2) (x - len ds2))
            | None => None
            end
        | _ => None
        end
      else None
  | [], [] => None
  end.

(** NonDecimalIntegerLiteral: [0x], [0o] or [0b] (either case) followed by
    at least one digit of that radix and nothing else; no sign. *)
Definition parse_non_decimal (l : list ascii) : option float :=
  match l with
  | z :: p :: l' =>
      if code z =? 48 then
        let radix :=
          if (code p =? 120) || (code p =? 88) then Some 16
          else if (code p =? 111) || (code p =? 79) then Some 8
          else if (code p =? 98) || (code p =? 66) then Some 2
          else None in
        match radix with
        | Some rx =>
            match span_digits rx l' with
            | ((_ :: _) as ds, []) =>
                let v := digits_value rx ds in
                Some (if v =? 0 then 0%float else round_ratio v 1)
            | _ => None
            end
        | None => None
        end
      else None
  | _ => None
  end.

Definition StringToNumber (s : string) : float :=
  let l := trim (list_ascii_of_string s) in
  match l with
  | [] => 0%float
  | a :: l' =>
      match parse_non_decimal l with
      | Some x => x
      | None =>
          let '(neg, body) :=
            if code a =? 45 then (true, l')
            else if code a =? 43 then (false, l')
            else (false, l) in
          match parse_unsigned_decimal body with
          | Some x => if neg then PrimFloat.opp x else x
          | None => nan
          end
      end
  end.

(** [Number(v)] *)
Definition ToNumber (v : Value) : float :=
  match v with
  | Undefined => nan
  | Null => 0%float
  | Bool true => 1%float
  | Bool false => 0%float
  | Num x => x
  | Str s => StringToNumber s
  end.

(** *** [Number::toString]: the Number case of [String(v)] *)

(** Compare the positive rational [p / q] with [10^n]. *)
Definition lt_pow10 (p q n : Z) : bool :=
  if 0 <=? n then p <? q * 10 ^ n else p * 10 ^ (- n) <? q.

(** The [n] with [10^(n-1) <= p/q < 10^n], searched around the estimate that
    the binary logarithms give. *)
Definition decimal_exponent (p q : Z) : Z :=
  let est := (Z.log2 p - Z.log2 q) * 30103 / 100000 in
  let ok n := negb (lt_pow10 p q (n - 1)) && lt_pow10 p q n in
  match List.find ok [est - 1; est; est + 1; est + 2; est + 3] with
  | Some n => n
  | None => est
  end.

(** [s * 10^x] as a numerator and a denominator. *)
Definition scale10 (s x : Z) : Z * Z :=
  if 0 <=? x then (s * 10 ^ x, 1) else (s, 10 ^ (- x)).

(** Does the decimal [s * 10^(n-k)], with [s] of exactly [k] digits, denote
    the Number [x]? *)
Definition denotes (x : float) (k n s : Z) : bool :=
  (10 ^ (k - 1) <=? s) && (s <? 10 ^ k) &&
  (let '(a, b) := scale10 s (n - k) in PrimFloat.eqb (round_ratio a b) x).

(** Candidates with [k] digits: for [n] and [n + 1], the two integers that
    bracket [x / 10^(n-k)]. *)
Definition candidates (x : float) (p q k n0 : Z) : list (Z * Z) :=
  flat_map (fun n =>
    let '(a, b) := scale10 1 (n - k) in
    let lo := (p * b) / (q * a) in
    List.filter (fun c => denotes x k (snd c) (fst c)) [(lo, n); (lo + 1, n)])
  [n0; n0 + 1].

(** The better of two candidates of one [k]: the closer one; on a tie the
    even one.  Candidates with different [n] are compared as rationals. *)
Definition closer (p q k : Z) (c1 c2 : Z * Z) : Z * Z :=
  let '(s1, n1) := c1 in
  let '(s2, n2) := c2 in
  let '(a1, b1) := scale10 s1 (n1 - k) in
  let '(a2, b2) := scale10 s2 (n2 - k) in
  let d1 := Z.abs (a1 * q - p * b1) * b2 in
  let d2 := Z.abs (a2 * q - p * b2) * b1 in
  if d1 <? d2 then c1
  else if d2 <? d1 then c2
  else if Z.even s1 then c1 else c2.

(** Shortest digits: the least [k] with a [k]-digit decimal denoting [x]. *)
Fixpoint shortest (fuel : nat) (x : float) (p q n0 k : Z) : Z * Z * Z :=
  match candidates x p q k n0 with
  | c :: cs =>
      let '(s, n) := fold_left (closer p q k) cs c in (s, k, n)
  | [] =>
      match fuel with
      | O => let '(a, b) := scale10 1 (n0 - k) in ((p * b) / (q * a), k, n0)
      | S fuel' => shortest fuel' x p q n0 (k + 1)
      end
  end.

Definition substr_from (i : Z) (s : string) : string :=
  String.substring (Z.to_nat i) (String.length s - Z.to_nat i) s.

(** Steps 5 to 10 of Number::toString for a finite [x > 0] equal to
    [p / q]. *)
Definition format_positive (x : float) (p q : Z) : string :=
  let n0 := decimal_exponent p q in
  let '(s, k, n) := shortest 17 x p q n0 1 in
  let ds := dec s in
  if (k <=? n) && (n <=? 21) then ds ++ zeros (Z.to_nat (n - k))
  else if (0 <? n) && (n <=? 21) then
    String.substring 0 (Z.to_nat n) ds ++ "." ++ substr_from n ds
  else if (-6 <? n) && (n <=? 0) then "0." ++ zeros (Z.to_nat (- n)) ++ ds
  else
    let e := n - 1 in
    let es := (if 0 <=? e then "+" else "-") ++ dec (Z.abs e) in
    if k =? 1 then ds ++ "e" ++ es
    else String.substring 0 1 ds ++ "." ++ substr_from 1 ds ++ "e" ++ es.

Definition NumberToString (x : float) : string :=
  match Prim2SF x with
  | S754_nan => "NaN"
  | S754_zero _ => "0"
  | S754_infinity false => "Infinity"
  | S754_infinity true => "-Infinity"
  | S754_finite sign m e =>
      let '(p, q) := scale2 (Z.pos m) 1 (- e) in
      (if sign then "-" else "") ++ format_positive (PrimFloat.abs x) p q
  end.

(** [String(v)] *)
Definition ToString (v : Value) : string :=
  match v with
  | Undefined => "undefined"
  | Null => "null"
  | Bool true => "true"
  | Bool false => "false"
  | Num x => NumberToString x
  | Str s => s
  end.

(** [v ?? d]: nullish coalescing. *)
Definition nullish (v : Value) : bool :=
  match v with
  | Null | Undefined => true
  | _ => false
  end.

Definition coalesce (v d : Value) : Value := if nullish v then d else v.

(** [ToBoolean(v)]: what [if (v)], [!v] and [a && b] test.  The empty
    string is falsy, like [null], [undefined], zero and NaN. *)
Definition truthy (v : Value) : bool :=
  match v with
  | Null | Undefined => false
  | Bool b => b
  | Num x => negb (PrimFloat.eqb x 0) && negb (isNaN x)
  | Str s => negb (String.eqb s "")
  end.

(** [a === b] *)
Definition strict_eq (a b : Value) : bool :=
  match a, b with
  | Null, Null => true
  | Undefined, Undefined => true
  | Bool x, Bool y => Bool.eqb x y
  | Num x, Num y => PrimFloat.eqb x y
  | Str x, Str y => String.eqb x y
  | _, _ => false
  end.

End Js.

(* ===================================================================== *)
(** ** ChartView.jsx: the chart-type inferencer *)
(* ===================================================================== *)

Module Chart.
Import Js.

(** A row is a plain object: its own properties in the order [Object.keys]
    lists them.  Reading an absent key yields [undefined]. *)
Definition Row : Type := list (string * Value).

(** An element of the [dataRows] array: an object, or [null]. *)
Definition Item : Type := option Row.

Fixpoint get (r : Row) (c : string) : Value :=
  match r with
  | (k, v) :: r' => if String.eqb k c then v else get r' c
  | [] => Undefined
  end.

(** [Object.keys(x)]: a TypeError on [null] and [undefined]. *)
Definition Object_keys (x : option Item) : Completion (list string) :=
  match x with
  | Some (Some r) => ret (map fst r)
  | _ => Throw TypeError
  end.

(** [x[key]]: a TypeError when [x] is [null] or [undefined]; the key of a
    member access is converted with [ToString]. *)
Definition member (x : option Item) (key : Value) : Completion Value :=
  match x with
  | Some (Some r) => ret (get r (ToString key))
  | _ => Throw TypeError
  end.

(** [arr[i]]: [None] stands for the [undefined] of an index out of range. *)
Definition at_index (arr : list Item) (i : nat) : option Item := arr !! i.

Record ColStat : Type := { numericCount : nat; sampleValue : Value }.

Record Dataset : Type :=
  { label : string; data : list float; backgroundColor : list string }.

Record ChartData : Type := { labels : list string; datasets : list Dataset }.

(** The element [ChartView] returns, by the chart component it wraps and the
    variables its JSX interpolates. *)
Inductive Element : Type :=
| Pie (numCol catCol : Value) (chartData : ChartData)
| Bar (numCol catCol : Value) (chartData : ChartData)
| Line (col : string) (xs : list nat) (values : list float).

Definition isNumeric (val : Value) : bool :=
  negb (strict_eq val Null) && negb (strict_eq val Undefined)
  && negb (isNaN (ToNumber val)).

(** The template literal of the slice colours. *)
Definition hsl (i : nat) : string :=
  "hsl(" ++ dec (Z.of_nat ((i * 47) mod 360)) ++ " 70% 60%)".

(** "compute column stats": for each column, how many of the first
    [min(length, 50)] rows hold a numeric value.  Array lengths and indices
    are integers below 2^32, on which Number arithmetic is exact: they are
    [nat] here. *)
Definition columnStats (dataRows : list Item) (cols : list string)
  : Completion (gmap string ColStat) :=
  for_of cols (fun (colStats : gmap string ColStat) c =>
    do numericCount <-
      for_of (seq 0 (Nat.min (List.length dataRows) 50))
        (fun numericCount i =>
           do v <- member (at_index dataRows i) (Str c) ;
           ret (if isNumeric v then S numericCount else numericCount)) 0%nat ;
    do sampleValue <- member (at_index dataRows 0) (Str c) ;
    ret (<[c := {| numericCount := numericCount;
                   sampleValue := sampleValue |}]> colStats)) ∅.

(** "find one categorical and one numeric candidate": the loop over the
    columns, with the state [(catCol, numCol)], both [null] at first. *)
Definition findCandidates (dataRows : list Item) (cols : list string)
           (colStats : gmap string ColStat) : Completion (Value * Value) :=
  for_of cols (fun '(catCol, numCol) c =>
    match colStats !! c with
    | None => Throw TypeError
    | Some st =>
        if (Nat.min 5 (List.length dataRows / 2) <=? numericCount st)%nat
        then ret (catCol, if negb (truthy numCol) then Str c else numCol)
        else ret (if negb (truthy catCol) then Str c else catCol, numCol)
    end) (Null, Null).

(** Lines 48 to 69: both loops, giving [(catCol, numCol)] as the second
    loop leaves them. *)
Definition candidateLoop (dataRows : list Item) (cols : list string)
  : Completion (Value * Value) :=
  do colStats <- columnStats dataRows cols ;
  findCandidates dataRows cols colStats.

(** "fallback: if only two cols and one is numeric -> treat other as
    category". *)
Definition fallback (cols : list string) (catCol numCol : Value) : Value :=
  if negb (truthy catCol) && (List.length cols =? 2)%nat && truthy numCol
  then match List.find (fun c => negb (strict_eq (Str c) numCol)) cols with
       | Some c => Str c
       | None => Undefined
       end
  else catCol.

(** Lines 40 to 74: the columns, and [catCol] and [numCol] as they stand
    when the chart is built. *)
Definition selectColumns (dataRows : list Item)
  : Completion (list string * Value * Value) :=
  do cols <- Object_keys (at_index dataRows 0) ;
  do sel <- candidateLoop dataRows cols ;
  ret (cols, fallback cols (fst sel) (snd sel), snd sel).

(** [dataRows.map((r) => conv(r[key] ?? dflt))] *)
Definition column (dataRows : list Item) (key : Value) (dflt : Value)
           {A} (conv : Value -> A) : Completion (list A) :=
  array_map (fun r => do v <- member (Some r) key ; ret (conv (coalesce v dflt)))
            dataRows.

(** Lines 82 to 128: the chart for the selected columns. *)
Definition buildChart (dataRows : list Item) (chartTypeOverride : Value)
           (cols : list string) (catCol numCol : Value)
  : Completion (option Element) :=
  if truthy catCol && truthy numCol then
    do labels <- column dataRows catCol (Str "") ToString ;
    do values <- column dataRows numCol (Num 0) ToNumber ;
    let chartData :=
      {| labels := labels;
         datasets := [ {| label := ToString numCol;
                          data := values;
                          backgroundColor :=
                            map hsl (seq 0 (List.length labels)) |} ] |} in
    if strict_eq chartTypeOverride (Str "pie")
       || ((List.length labels <=? 10)%nat
           && negb (strict_eq chartTypeOverride (Str "bar")))
    then ret (Some (Pie numCol catCol chartData))
    else ret (Some (Bar numCol catCol chartData))
  else if negb (truthy catCol) && truthy numCol && (List.length cols =? 1)%nat then
    let col0 := match cols !! 0%nat with
                | Some c => Str c
                | None => Undefined
                end in
    let labels := map (fun i => (i + 1)%nat) (seq 0 (List.length dataRows)) in
    do values <- column dataRows col0 (Num 0) ToNumber ;
    ret (Some (Line (ToString col0) labels values))
  else ret None.

(** [ChartView({ dataRows, chartTypeOverride = null })]: the guard of line
    37, then the column selection and the chart; [None] is the [null] the
    component returns when it draws nothing. *)
Definition ChartView (dataRows : option (list Item)) (chartTypeOverride : Value)
  : Completion (option Element) :=
  match dataRows with
  | None => ret None
  | Some dataRows =>
      if (List.length dataRows =? 0)%nat then ret None else
      do sel <- selectColumns dataRows ;
      let '(cols, catCol, numCol) := sel in
      buildChart dataRows chartTypeOverride cols catCol numCol
  end.

(** *** The same computation read on arrays of objects

    On an array without [null] entries nothing throws; the definitions
    below say what the loops compute there, in the words of the
    classification rule. *)

(** Numeric values of column [c] among the first 50 rows. *)
Definition numericCountOf (rows : list Row) (c : string) : nat :=
  List.length (List.filter (fun r => isNumeric (get r c)) (firstn 50 rows)).

Definition threshold (rows : list Row) : nat :=
  Nat.min 5 (List.length rows / 2).

Definition numeric_candidate (rows : list Row) (c : string) : bool :=
  (threshold rows <=? numericCountOf rows c)%nat.

Definition categorical_candidate (rows : list Row) (c : string) : bool :=
  negb (numeric_candidate rows c).

(** One turn of the candidate loop. *)
Definition pick (rows : list Row) (st : Value * Value) (c : string)
  : Value * Value :=
  if numeric_candidate rows c
  then (fst st, if negb (truthy (snd st)) then Str c else snd st)
  else (if negb (truthy (fst st)) then Str c else fst st, snd st).

(** Column names of a result set: the keys of its first row. *)
Definition columns (rows : list Row) : list string :=
  match rows with
  | r :: _ => map fst r
  | [] => []
  end.

(** [(catCol, numCol)] when the candidate loop ends. *)
Definition candidatesOf (rows : list Row) : Value * Value :=
  fold_left (pick rows) (columns rows) (Null, Null).

(** ... and after the two-column fallback. *)
Definition catColOf (rows : list Row) : Value :=
  fallback (columns rows) (fst (candidatesOf rows)) (snd (candidatesOf rows)).

Definition numColOf (rows : list Row) : Value := snd (candidatesOf rows).

(** The stringified categories and the coerced values of a column. *)
Definition categories (rows : list Row) (c : string) : list string :=
  map (fun r => ToString (coalesce (get r c) (Str ""))) rows.

Definition numbers (rows : list Row) (c : string) : list float :=
  map (fun r => ToNumber (coalesce (get r c) (Num 0))) rows.

Definition chartDataOf (rows : list Row) (catCol numCol : string) : ChartData :=
  {| labels := categories rows catCol;
     datasets := [ {| label := numCol;
                      data := numbers rows numCol;
                      backgroundColor := map hsl (seq 0 (List.length rows)) |} ] |}.

(** An array of objects, as [dataRows]. *)
Definition objects (rows : list Row) : list Item := map Some rows.

Definition is_line (r : Completion (option Element)) : bool :=
  match r with
  | Normal (Some (Line _ _ _)) => true
  | _ => false
  end.

(** *** Result sets used as examples *)

(** [[{block:"A",seats:10},{block:"B",seats:5}]] *)
Definition seats_by_block : list Row :=
  [ [("block", Str "A"); ("seats", Num 10)];
    [("block", Str "B"); ("seats", Num 5)] ].

(** [[{count:3},{count:7},{count:2}]] *)
Definition counts : list Row :=
  [ [("count", Num 3)]; [("count", Num 7)]; [("count", Num 2)] ].

(** The same counts under a column whose name is the empty string. *)
Definition unnamed_counts : list Row :=
  [ [("", Num 3)]; [("", Num 7)]; [("", Num 2)] ].

(** The seats by block, the block column having the empty name. *)
Definition unnamed_category : list Row :=
  [ [("", Str "A"); ("seats", Num 10)];
    [("", Str "B"); ("seats", Num 5)] ].

(** Two numeric columns, the first of them with the empty name. *)
Definition unnamed_first : list Row :=
  [ [("", Num 1); ("x", Num 2)]; [("", Num 3); ("x", Num 4)] ].

(** Two numeric columns. *)
Definition two_numeric : list Row :=
  [ [("year", Num 2023); ("seats", Num 40)];
    [("year", Num 2024); ("seats", Num 55)] ].

(** A category and a value that are [null]. *)
Definition with_nulls : list Row :=
  [ [("block", Null); ("seats", Num 10)];
    [("block", Str "B"); ("seats", Null)] ].

(** One row, one column, holding text. *)
Definition one_text (name : string) : list Row := [ [(name, Str "abc")] ].

End Chart.

(* ===================================================================== *)
(** ** Chat.jsx: the client session identifier *)
(* ===================================================================== *)

Module Session.
Import Js.

(** [localStorage]: either every access throws (storage disabled by the
    browser), or it is a string-to-string map; [writable = false] is a store
    whose [setItem] throws (quota exceeded). *)
Inductive Storage : Type :=
| Blocked
| Store (items : gmap string string) (writable : bool).

(** The part of the browser [getSessionId] touches.  The global [crypto] is
    defined in every browser that runs the application; [randomUUID] exists
    on it in secure contexts only.  The random sources are oracles indexed by
    the number of draws made so far: [random_bytes] feeds
    [crypto.randomUUID()], and [random36] is the text of
    [Math.random().toString(36)]. *)
Record Browser : Type :=
  { localStorage : Storage;
    has_randomUUID : bool;
    random_bytes : nat -> list ascii;
    random36 : nat -> string;
    draws : nat }.

(** Code running against the browser: state passing with exceptions. *)
Definition M (A : Type) : Type := Browser -> Completion A * Browser.

Definition mret {A} (a : A) : M A := fun w => (Normal a, w).

Definition mbind {A B} (m : M A) (k : A -> M B) : M B := fun w =>
  match m w with
  | (Normal a, w') => k a w'
  | (Throw e, w') => (Throw e, w')
  end.

(** [try { body } catch (e) { handler }] *)
Definition try_catch {A} (body : M A) (handler : Error -> M A) : M A := fun w =>
  match body w with
  | (Normal a, w') => (Normal a, w')
  | (Throw e, w') => handler e w'
  end.

Notation "'run' x <- m ; k" := (mbind m (fun x => k))
  (at level 10, x name, m at level 100, k at level 200).

Definition with_storage (w : Browser) (st : Storage) : Browser :=
  {| localStorage := st;
     has_randomUUID := has_randomUUID w;
     random_bytes := random_bytes w;
     random36 := random36 w;
     draws := draws w |}.

Definition next_draw (w : Browser) : Browser :=
  {| localStorage := localStorage w;
     has_randomUUID := has_randomUUID w;
     random_bytes := random_bytes w;
     random36 := random36 w;
     draws := S (draws w) |}.

(** [localStorage.getItem(key)]: the stored string, or [null]. *)
Definition getItem (key : string) : M Value := fun w =>
  match localStorage w with
  | Blocked => (Throw StorageError, w)
  | Store items _ =>
      (Normal (match items !! key with Some v => Str v | None => Null end), w)
  end.

(** [localStorage.setItem(key, value)]: the value is stored as a string. *)
Definition setItem (key : string) (value : Value) : M unit := fun w =>
  match localStorage w with
  | Store items true =>
      (Normal tt, with_storage w (Store (<[key := ToString value]> items) true))
  | _ => (Throw StorageError, w)
  end.

Definition hex_digit (n : Z) : ascii :=
  ascii_of_nat (Z.to_nat (if n <? 10 then 48 + n else 87 + n)).

Definition hex_byte (b : Z) : string :=
  String (hex_digit (b / 16)) (String (hex_digit (b mod 16)) "").

(** The textual form of a version-4 UUID over 16 random bytes: version and
    variant bits are forced, groups of 4-2-2-2-6 bytes are joined by
    dashes. *)
Definition uuid_of_bytes (bs : list ascii) : string :=
  let b i := code (nth i bs zero) in
  let h i := hex_byte (b i) in
  let b6 := hex_byte (Z.lor (Z.land (b 6%nat) 15) 64) in
  let b8 := hex_byte (Z.lor (Z.land (b 8%nat) 63) 128) in
  h 0%nat ++ h 1%nat ++ h 2%nat ++ h 3%nat ++ "-" ++ h 4%nat ++ h 5%nat ++ "-"
  ++ b6 ++ h 7%nat ++ "-" ++ b8 ++ h 9%nat ++ "-"
  ++ h 10%nat ++ h 11%nat ++ h 12%nat ++ h 13%nat ++ h 14%nat ++ h 15%nat.

(** [crypto.randomUUID()] *)
Definition randomUUID : M Value := fun w =>
  (Normal (Str (uuid_of_bytes (random_bytes w (draws w)))), next_draw w).

(** [s.slice(2)] *)
Definition slice2 (s : string) : string :=
  String.substring 2 (String.length s - 2) s.

(** [`sid-${Math.random().toString(36).slice(2)}`] *)
Definition fallback_id : M Value := fun w =>
  (Normal (Str ("sid-" ++ slice2 (random36 w (draws w)))), next_draw w).

Definition getSessionId : M Value :=
  try_catch
    (run sid <- getItem "agentic_session_id" ;
     run sid <-
       (if negb (truthy sid) then
          run sid <- (fun w => (if has_randomUUID w then randomUUID
                                else fallback_id) w) ;
          run _u <- setItem "agentic_session_id" sid ;
          mret sid
        else mret sid) ;
     mret sid)
    (fun _ => fallback_id).

(** The identifier a call generates from the state of the random sources. *)
Definition fresh_id (w : Browser) : string :=
  if has_randomUUID w then uuid_of_bytes (random_bytes w (draws w))
  else "sid-" ++ slice2 (random36 w (draws w)).

(** A browser with working storage, a secure context, and fixed random
    sources. *)
Definition sample_browser (items : gmap string string) : Browser :=
  {| localStorage := Store items true;
     has_randomUUID := true;
     random_bytes := fun n => [ascii_of_nat (200 + n); "a"%char];
     random36 := fun _ => "0.4fzyo82mvyr";
     draws := 0 |}.

(** The browser after [n] calls of [getSessionId]. *)
Fixpoint after (n : nat) (w : Browser) : Browser :=
  match n with
  | O => w
  | S n' => snd (getSessionId (after n' w))
  end.

End Session.

(* ===================================================================== *)
(** ** The start-up scripts *)
(* ===================================================================== *)

Module Startup.

(** What a script does that an observer sees: lines written by [echo] and
    external commands run, with their exit status. *)
Inductive Event : Type :=
| Echo (line : string)
| Ran (argv : list string) (status : nat).

(** How a script ends: the shell exits, or [exec] replaces it by a
    command. *)
Inductive Outcome : Type :=
| Exited (status : nat)
| Execd (argv : list string).

(** A command: from the events so far to either the end of the script or
    an exit status to carry on with, and the events after it. *)
Definition Sh : Type := list Event -> (Outcome + nat) * list Event.

Section Shell.

(** Exit status of each external command of a start-up. *)
Variable sys : list string -> nat.

Definition external (argv : list string) : Sh := fun tr =>
  (inr (sys argv), (tr ++ [Ran argv (sys argv)])%list).

(** [echo]: a builtin that writes its line. *)
Definition echo (line : string) : Sh := fun tr => (inr 0%nat, (tr ++ [Echo line])%list).

Definition skip : Sh := fun tr => (inr 0%nat, tr).

(** [c1; c2] on separate lines *)
Definition andthen (c1 c2 : Sh) : Sh := fun tr =>
  match c1 tr with
  | (inl o, tr') => (inl o, tr')
  | (inr _, tr') => c2 tr'
  end.

(** [c1 || c2] *)
Definition orelse (c1 c2 : Sh) : Sh := fun tr =>
  match c1 tr with
  | (inl o, tr') => (inl o, tr')
  | (inr O, tr') => (inr 0%nat, tr')
  | (inr (S _), tr') => c2 tr'
  end.

(** A statement at the top level of a script under [set -e]: a non-zero
    status ends the script with that status. *)
Definition errexit (c : Sh) : Sh := fun tr =>
  match c tr with
  | (inr (S n), tr') => (inl (Exited (S n)), tr')
  | r => r
  end.

(** [exec argv]: replaces the shell; with no command it does nothing. *)
Definition exec (argv : list string) : Sh := fun tr =>
  match argv with
  | [] => (inr 0%nat, tr)
  | _ => (inl (Execd argv), tr)
  end.

(** A whole script: falling off the end exits with the last status. *)
Definition script (c : Sh) : Outcome * list Event :=
  match c [] with
  | (inl o, tr) => (o, tr)
  | (inr n, tr) => (Exited n, tr)
  end.

(** ["${name:-word}"]: [word] when the variable is unset or empty. *)
Definition expand_default (env : gmap string string) (name word : string) : string :=
  match env !! name with
  | Some v => if String.eqb v "" then word else v
  | None => word
  end.

Notation "c1 ;; c2" := (andthen c1 c2) (at level 100, right associativity).

(** The container entrypoint: reindex when the toggle says so, then
    [exec "$@"]. *)
Definition entrypoint (env : gmap string string) (args : list string)
  : Outcome * list Event :=
  script (
    (if String.eqb (expand_default env "REINDEX_KB" "true") "true" then
       errexit (echo "Reindexing KB...") ;;
       errexit (orelse
                  (external ["/app/scripts/reindex_kb.sh"; "/app/knowledge_base"])
                  (echo "reindex failed, continuing..."))
     else skip) ;;
    errexit (exec args)).

(** start.sh of the memory variant: wait, reindex, start the server. *)
Definition start_sh (env : gmap string string) : Outcome * list Event :=
  script (
    errexit (echo "Waiting for Qdrant to be ready...") ;;
    errexit (external ["sleep"; "5"]) ;;
    errexit (echo "Reindexing Knowledge Base...") ;;
    errexit (orelse
               (external ["./scripts/reindex_kb.sh"])
               (echo "Reindex failed — continuing startup.")) ;;
    errexit (echo "Starting backend...") ;;
    errexit (exec ["uvicorn"; "app:app"; "--host"; "0.0.0.0"; "--port"; "8000"])).

End Shell.

(** The value of the reindex toggle a start-up sees. *)
Definition toggle (env : gmap string string) : string :=
  expand_default env "REINDEX_KB" "true".

(** Command [argv] was run, with status [st], during the start-up. *)
Definition ran (argv : list string) (st : nat) (tr : list Event) : Prop :=
  In (Ran argv st) tr.

Definition logged (line : string) (tr : list Event) : Prop :=
  In (Echo line) tr.

End Startup.

(* ===================================================================== *)
(** ** JSON values as the chat and query pages read them *)
(* ===================================================================== *)

Module Dom.
Import Js.

(** A value parsed from a response body, or produced by reading one: a
    primitive, an array or an object (its properties in order). *)
#[local] Unset Elimination Schemes.
Inductive Any : Type :=
| Prim (v : Value)
| Arr (items : list Any)
| Obj (fields : list (string * Any)).
#[local] Set Elimination Schemes.

(** [ToBoolean]: arrays and objects are truthy, the empty array too. *)
Definition truthyA (x : Any) : bool :=
  match x with
  | Prim v => truthy v
  | _ => true
  end.

Definition nullishA (x : Any) : bool :=
  match x with
  | Prim v => nullish v
  | _ => false
  end.

(** [a || b] and [a && b], which return one of their operands. *)
Definition or (a b : Any) : Any := if truthyA a then a else b.
Definition and (a b : Any) : Any := if truthyA a then b else a.

Fixpoint lookup (fields : list (string * Any)) (k : string) : Any :=
  match fields with
  | (k', v) :: fields' => if String.eqb k' k then v else lookup fields' k
  | [] => Prim Undefined
  end.

(** [x.k] for a data property [k] other than [length] (the pages read no
    inherited member): a TypeError on [null] and [undefined], [undefined] on
    the other primitives and on arrays. *)
Definition prop (x : Any) (k : string) : Completion Any :=
  match x with
  | Prim Null | Prim Undefined => Throw TypeError
  | Obj fields => ret (lookup fields k)
  | _ => ret (Prim Undefined)
  end.

(** [x?.k] *)
Definition prop_opt (x : Any) (k : string) : Completion Any :=
  if nullishA x then ret (Prim Undefined) else prop x k.

(** [x.length]: the length of an array or of a string is an integer below
    2^32 and is a [nat] here; on an object it is the property of that name,
    on the other values it is [undefined]. *)
Inductive Length : Type :=
| Len (n : nat)
| NotLen (v : Any).

Definition length_of (x : Any) : Completion Length :=
  match x with
  | Prim Null | Prim Undefined => Throw TypeError
  | Prim (Str s) => ret (Len (String.length s))
  | Prim _ => ret (NotLen (Prim Undefined))
  | Arr items => ret (Len (List.length items))
  | Obj fields => ret (NotLen (lookup fields "length"))
  end.

(** [x?.length] *)
Definition length_opt (x : Any) : Completion Length :=
  if nullishA x then ret (NotLen (Prim Undefined)) else length_of x.

(** [String(x)]: an array joins the strings of its elements with commas,
    [null] and [undefined] elements as the empty string; a plain object is
    "[object Object]". *)
Fixpoint ToStringA (x : Any) : string :=
  match x with
  | Prim v => ToString v
  | Arr items =>
      (fix join (l : list Any) : string :=
         match l with
         | [] => ""
         | y :: l' =>
             (if nullishA y then "" else ToStringA y)
             ++ match l' with
                | [] => ""
                | _ => "," ++ join l'
                end
         end) items
  | Obj _ => "[object Object]"
  end.

(** [Number(x)] *)
Definition ToNumberA (x : Any) : float :=
  match x with
  | Prim v => ToNumber v
  | _ => StringToNumber (ToStringA x)
  end.

(** [n > 0], [n === 0] and the truthiness of [n], for [n] a length. *)
Definition positive (n : Length) : bool :=
  match n with
  | Len k => negb (k =? 0)%nat
  | NotLen v => PrimFloat.ltb 0 (ToNumberA v)
  end.

Definition is_zero (n : Length) : bool :=
  match n with
  | Len k => (k =? 0)%nat
  | NotLen (Prim (Num x)) => PrimFloat.eqb x 0
  | NotLen _ => false
  end.

Definition truthyL (n : Length) : bool :=
  match n with
  | Len k => negb (k =? 0)%nat
  | NotLen v => truthyA v
  end.

(** An [Error] object: its [name] and its [message]. *)
Record Exn : Type := { name : string; message : string }.

(** [String(err)], that is [Error.prototype.toString]. *)
Definition Exn_toString (e : Exn) : string :=
  if String.eqb (name e) "" then message e
  else if String.eqb (message e) "" then name e
  else name e ++ ": " ++ message e.

(** [new Error(m)] *)
Definition new_Error (m : Any) : Exn :=
  {| name := "Error"; message := ToStringA m |}.

(** What [fetch] brings back: a rejection, or a response with its [ok]
    flag, its status, and what reading its body as text or as JSON gives. *)
Inductive Reply : Type :=
| Rejected (err : Exn)
| Responded (ok : bool) (status : nat) (text : Exn + string) (json : Exn + Any).

(** The request a page sends: the URL and the value it serialises as the
    body (method POST, content type JSON). *)
Record Request : Type := { url : string; body : Any }.

(** [import.meta.env.VITE_API_URL || "http://172.18.181.41:8000"] *)
Definition API_BASE (VITE_API_URL : Value) : Value :=
  if truthy VITE_API_URL then VITE_API_URL else Str "http://172.18.181.41:8000".

(** The part common to both pages: [fetch], the check of [res.ok] with
    [throw new Error(txt || res.status)], and the parsed body.  A failure is
    the exception the [catch] receives.  The status is an integer and is
    written in decimal. *)
Definition post (reply : Reply) : Exn + Any :=
  match reply with
  | Rejected err => inl err
  | Responded false status text _ =>
      match text with
      | inl err => inl err
      | inr txt =>
          inl (new_Error (or (Prim (Str txt))
                             (Prim (Str (dec (Z.of_nat status))))))
      end
  | Responded true _ _ json => json
  end.

End Dom.

(* ===================================================================== *)
(** ** Chat.jsx: sending a message, and the debug panel *)
(* ===================================================================== *)

Module ChatPage.
Import Js Dom.

Record Message : Type :=
  { role : string; text : Any; meta : option Any }.

(** The state of the [Chat] component. *)
Record State : Type :=
  { messages : list Message; input : string; loading : bool }.

(** [s.trim()] *)
Definition trim_string (s : string) : string :=
  string_of_list_ascii (trim (list_ascii_of_string s)).

(** The body of the [try] block of [send] after the response has arrived:
    the assistant message, or the exception thrown. *)
Definition answer_of (null_read : Exn) (data : Any) : Exn + Message :=
  match prop data "answer", prop data "llm_raw", prop data "message" with
  | Normal answer, Normal llm_raw, Normal message =>
      inr {| role := "assistant";
             text := or (or (or answer llm_raw) message) (Prim (Str ""));
             meta := Some data |}
  | _, _, _ => inl null_read
  end.

(** [send()], for one call that runs alone: the state once the promise has
    settled, and the request made, if any.  [server] is what the back end
    answers, [null_read] the engine's TypeError for a property read on
    [null] or [undefined]. *)
Definition send (VITE_API_URL SESSION_ID : Value) (server : Request -> Reply)
           (null_read : Exn) (st : State) : State * option Request :=
  if negb (truthy (Str (trim_string (input st)))) then (st, None) else
  let text := trim_string (input st) in
  let messages1 :=
    (messages st ++ [ {| role := "user"; text := Prim (Str text);
                         meta := None |} ])%list in
  let request :=
    {| url := ToString (API_BASE VITE_API_URL) ++ "/api/chat";
       body := Obj [ ("message", Prim (Str text));
                     ("debug", Prim (Bool true));
                     ("session_id", Prim SESSION_ID) ] |} in
  let outcome :=
    match post (server request) with
    | inl err => inl err
    | inr data => answer_of null_read data
    end in
  let reply :=
    match outcome with
    | inr msg => msg
    | inl err =>
        {| role := "assistant";
           text := Prim (Str ("Error: " ++ Exn_toString err));
           meta := None |}
    end in
  ({| messages := (messages1 ++ [reply])%list; input := ""; loading := false |},
   Some request).

(** *** [DebugPanel]: what it computes from [meta] before it renders *)

(** [!!meta.kb_hits || !!meta.sources ||
     (meta.type === "informational" && meta.kb_hits?.length)], as the
    truth value the ternary of line 35 tests. *)
Definition ragUsed (meta : Any) : Completion bool :=
  do kb_hits <- prop meta "kb_hits" ;
  if truthyA kb_hits then ret true else
  do sources <- prop meta "sources" ;
  if truthyA sources then ret true else
  do type <- prop meta "type" ;
  match type with
  | Prim v =>
      if strict_eq v (Str "informational") then
        do kb_hits' <- prop meta "kb_hits" ;
        do n <- length_opt kb_hits' ;
        ret (truthyL n)
      else ret false
  | _ => ret false
  end.

(** [ragUsed ? "Yes" : "No"] *)
Definition ragUsedLabel (meta : Any) : Completion string :=
  do used <- ragUsed meta ;
  ret (if used then "Yes" else "No").

(** [const hits = meta.kb_hits || []] *)
Definition hits (meta : Any) : Completion Any :=
  do kb_hits <- prop meta "kb_hits" ;
  ret (or kb_hits (Arr [])).

(** [hits && hits.length > 0]: the list of hits is rendered. *)
Definition showHits (meta : Any) : Completion bool :=
  do h <- hits meta ;
  if truthyA h then do n <- length_of h ; ret (positive n) else ret false.

(** [!hits || hits.length === 0]: "No RAG hits returned by backend." is
    rendered. *)
Definition showNoHits (meta : Any) : Completion bool :=
  do h <- hits meta ;
  if negb (truthyA h) then ret true else do n <- length_of h ; ret (is_zero n).

End ChatPage.

(* ===================================================================== *)
(** ** App.jsx: asking a question, and the chart override *)
(* ===================================================================== *)

Module AppPage.
Import Js Dom.

(** The state of the [App] component that [submitQuestion] touches. *)
Record State : Type :=
  { question : string; loading : bool; result : Any; error : Any }.

(** A block of statements over the state that may throw. *)
Definition Block : Type := State -> Exn + State.

(** [try { body } catch (err) { handler(err) }], the handler not throwing. *)
Definition try_catch (body : Block) (handler : Exn -> State -> State) : Block :=
  fun st => match body st with
            | inr st' => inr st'
            | inl err => inr (handler err st)
            end.

(** [try { body } finally { last }] *)
Definition try_finally (body : Block) (last : State -> State) : Block :=
  fun st => match body st with
            | inr st' => inr (last st')
            | inl err => inl err
            end.

(** Statements in sequence. *)
Definition seq_block (b1 b2 : Block) : Block :=
  fun st => match b1 st with
            | inr st' => b2 st'
            | inl err => inl err
            end.

Definition setLoading (b : bool) (st : State) : State :=
  {| question := question st; loading := b;
     result := result st; error := error st |}.

Definition setError (e : Any) (st : State) : State :=
  {| question := question st; loading := loading st;
     result := result st; error := e |}.

Definition setResult (r : Any) (st : State) : State :=
  {| question := question st; loading := loading st;
     result := r; error := error st |}.

Definition request_of (VITE_API_URL : Value) (st : State) : Request :=
  {| url := ToString (API_BASE VITE_API_URL) ++ "/api/query";
     body := Obj [ ("question", Prim (Str (question st))) ] |}.

(** The [try] block: fetch, check, parse, [setResult(data)]. *)
Definition ask (VITE_API_URL : Value) (server : Request -> Reply) : Block :=
  fun st => match post (server (request_of VITE_API_URL st)) with
            | inl err => inl err
            | inr data => inr (setResult data st)
            end.

(** [setError(err.message || String(err))] *)
Definition on_error (err : Exn) (st : State) : State :=
  setError (or (Prim (Str (message err))) (Prim (Str (Exn_toString err)))) st.

Definition begin (st : State) : Exn + State :=
  inr (setResult (Prim Null) (setError (Prim Null) (setLoading true st))).

(** [submitQuestion] of App.jsx: [setLoading(false)] follows the
    [try]/[catch]. *)
Definition submitQuestion (VITE_API_URL : Value) (server : Request -> Reply)
  : Block :=
  seq_block begin
    (seq_block (try_catch (ask VITE_API_URL server) on_error)
               (fun st => inr (setLoading false st))).

(** [submitQuery] of the tabbed variant of the page: [setLoading(false)] is
    in a [finally] clause. *)
Definition submitQuery (VITE_API_URL : Value) (server : Request -> Reply)
  : Block :=
  seq_block begin
    (try_finally (try_catch (ask VITE_API_URL server) on_error)
                 (setLoading false)).

(** The chart override and the [select] that edits it:
    [value={chartOverride || ""}] and
    [setChartOverride(e.target.value || null)]. *)
Definition select_value (chartOverride : Value) : Value :=
  if truthy chartOverride then chartOverride else Str "".

Definition on_select (target_value : string) : Value :=
  if truthy (Str target_value) then Str target_value else Null.

End AppPage.

(* ===================================================================== *)
(** ** Responses used as examples *)
(* ===================================================================== *)

Module Replies.
Import Js Dom.

(** An informational answer whose retrieval found nothing. *)
Definition no_hits : Any :=
  Obj [ ("type", Prim (Str "informational"));
        ("answer", Prim (Str "The mess opens at 7."));
        ("kb_hits", Arr []) ].

(** A back end that answers every request with [no_hits]. *)
Definition steady (_ : Request) : Reply :=
  Responded true 200 (inr "") (inr no_hits).

(** A back end that fails with status 500 and an empty body. *)
Definition broken (_ : Request) : Reply :=
  Responded false 500 (inr "") (inl {| name := "SyntaxError"; message := "" |}).

Definition null_read : Exn :=
  {| name := "TypeError"; message := "data is null" |}.

(** A fresh chat with a question typed in, spaces around it. *)
Definition typed : ChatPage.State :=
  {| ChatPage.messages := [];
     ChatPage.input := "  When does the mess open? ";
     ChatPage.loading := false |}.

End Replies.

(* ===================================================================== *)
(** ** Further result sets *)
(* ===================================================================== *)

Module Tables.
Import Js Chart.

(** Two rows of text only. *)
Definition text_only : list Row :=
  [ [("block", Str "A"); ("warden", Str "Rao")];
    [("block", Str "B"); ("warden", Str "Iyer")] ].

(** One row with three columns. *)
Definition totals : list Row :=
  [ [("boys", Num 120); ("girls", Num 95); ("staff", Str "n/a")] ].

(** Fifty rows of numbers by block, followed by one more row. *)
Definition fifty_and (last : Row) : list Row :=
  (repeat [("block", Str "A"); ("seats", Num 4)] 50 ++ [last])%list.

End Tables.

(* ===================================================================== *)
(** ** Properties *)
(* ===================================================================== *)

Import Js.

(** Facts about one concrete input are settled by running the embedding. *)
Ltac by_evaluation := vm_compute; repeat split; reflexivity.

(** *** Conversions on sample inputs *)

Example StringToNumber_samples :
  map (fun s => NumberToString (StringToNumber s))
      ["10"; " 12.5e1 "; ""; "A"; "0x1F"; "-0"; "1e309"; ".5"; "1e21"; "12abc";
       "0.1"; "1e23"; "5e-324"; "-Infinity"; "1.7976931348623157e308"]
  = ["10"; "125"; "0"; "NaN"; "31"; "0"; "Infinity"; "0.5"; "1e+21"; "NaN";
     "0.1"; "1e+23"; "5e-324"; "-Infinity"; "1.7976931348623157e+308"].
Proof. by_evaluation. Qed.

Example isNumeric_samples :
  map Chart.isNumeric
      [Null; Undefined; Num 3; Num nan; Num infinity; Str "7"; Str "seven";
       Str ""; Str "  "; Bool true]
  = [false; false; true; false; true; true; false; true; true; true].
Proof. by_evaluation. Qed.

(** *** Loops that do not throw *)

Lemma for_of_pure {A S} (l : list A) (body : S -> A -> Completion S)
      (f : S -> A -> S) :
  (forall s x, In x l -> body s x = Normal (f s x)) ->
  forall s, for_of l body s = Normal (fold_left f l s).
Proof.
  induction l as [|x l IH]; intros Hb s; simpl.
  - reflexivity.
  - rewrite Hb by (left; reflexivity). simpl.
    apply IH. intros s' y Hy. apply Hb. right. exact Hy.
Qed.

Lemma array_map_pure {A B} (f : A -> Completion B) (g : A -> B) (l : list A) :
  (forall x, In x l -> f x = Normal (g x)) ->
  array_map f l = Normal (map g l).
Proof.
  induction l as [|x l IH]; intros Hf; simpl.
  - reflexivity.
  - rewrite Hf by (left; reflexivity). simpl.
    rewrite IH; [reflexivity|]. intros y Hy. apply Hf. right. exact Hy.
Qed.

(** A successful [map] has one result per element, in order. *)
Lemma array_map_Normal {A B} (f : A -> Completion B) (l : list A) (ys : list B) :
  array_map f l = Normal ys ->
  List.length ys = List.length l /\
  forall i x, l !! i = Some x -> exists y, f x = Normal y /\ ys !! i = Some y.
Proof.
  revert ys. induction l as [|x l IH]; intros ys H; simpl in H.
  - inversion H; subst. split; [reflexivity|]. intros i x Hx. discriminate.
  - destruct (f x) as [y|e] eqn:Hfx; simpl in H; [|discriminate].
    destruct (array_map f l) as [ys'|e] eqn:Hl; simpl in H; [|discriminate].
    inversion H; subst. destruct (IH ys' eq_refl) as [Hlen Hnth].
    split; [simpl; congruence|].
    intros [|i] x' Hx'; simpl in *.
    + inversion Hx'; subst. exists y. split; [exact Hfx | reflexivity].
    + apply Hnth. exact Hx'.
Qed.

(** *** [ChartView] on arrays of objects *)

Section ChartObjects.
Import Chart.

Variable rows : list Row.

Lemma objects_lookup (i : nat) (r : Row) :
  rows !! i = Some r -> at_index (objects rows) i = Some (Some r).
Proof.
  intros H. unfold at_index, objects. rewrite list_lookup_fmap, H. reflexivity.
Qed.

Lemma objects_length : List.length (objects rows) = List.length rows.
Proof. unfold objects. apply length_map. Qed.

Lemma count_loop_from (c : string) (n a acc : nat) :
  (a + n <= List.length rows)%nat ->
  for_of (seq a n)
    (fun numericCount i =>
       do v <- member (at_index (objects rows) i) (Str c) ;
       ret (if isNumeric v then S numericCount else numericCount)) acc
  = Normal (acc + List.length
              (List.filter (fun r => isNumeric (get r c))
                           (firstn n (skipn a rows))))%nat.
Proof.
  revert a acc. induction n as [|n IH]; intros a acc Hle; simpl.
  - f_equal. lia.
  - destruct (rows !! a) as [r|] eqn:Hr.
    2:{ apply lookup_ge_None in Hr. lia. }
    rewrite (objects_lookup _ _ Hr). simpl.
    rewrite IH by lia.
    rewrite (drop_S _ _ _ Hr). simpl.
    destruct (isNumeric (get r c)); simpl; f_equal; lia.
Qed.

Lemma count_loop (c : string) :
  for_of (seq 0 (Nat.min (List.length (objects rows)) 50))
    (fun numericCount i =>
       do v <- member (at_index (objects rows) i) (Str c) ;
       ret (if isNumeric v then S numericCount else numericCount)) 0%nat
  = Normal (numericCountOf rows c).
Proof.
  rewrite objects_length, count_loop_from by lia.
  unfold numericCountOf. simpl. do 3 f_equal.
  destruct (Nat.le_ge_cases (List.length rows) 50) as [H|H].
  - rewrite Nat.min_l by exact H.
    rewrite firstn_all. symmetry. apply firstn_all2. exact H.
  - rewrite Nat.min_r by exact H. reflexivity.
Qed.

Lemma column_objects (key dflt : Value) {A} (conv : Value -> A) :
  column (objects rows) key dflt conv
  = Normal (map (fun r => conv (coalesce (get r (ToString key)) dflt)) rows).
Proof.
  unfold column, objects.
  rewrite (array_map_pure _
             (fun x => conv (coalesce (get (default [] x) (ToString key)) dflt))).
  - rewrite map_map. reflexivity.
  - intros x Hx. apply in_map_iff in Hx. destruct Hx as [r [<- _]]. reflexivity.
Qed.

(** The statistics object after the first loop: every column of the loop
    has its entry, with the count of the classification rule. *)
Lemma stats_lookup (g : string -> ColStat) (cols : list string) :
  forall (m : gmap string ColStat) (c : string),
    In c cols ->
    fold_left (fun m c => <[c := g c]> m) cols m !! c = Some (g c).
Proof.
  assert (Hkeep : forall cols (m : gmap string ColStat) c,
            m !! c = Some (g c) ->
            fold_left (fun m c => <[c := g c]> m) cols m !! c = Some (g c)).
  { intros l. induction l as [|x l IH]; intros m c Hm; simpl; [exact Hm|].
    apply IH. destruct (decide (x = c)) as [->|Hne].
    - apply lookup_insert_eq.
    - rewrite lookup_insert_ne by exact Hne. exact Hm. }
  induction cols as [|x cols IH]; intros m c Hin; simpl.
  - destruct Hin.
  - destruct Hin as [->|Hin].
    + apply Hkeep. apply lookup_insert_eq.
    + apply IH. exact Hin.
Qed.

Lemma columnStats_objects (r0 : Row) (cols : list string) :
  rows !! 0%nat = Some r0 ->
  columnStats (objects rows) cols
  = Normal (fold_left
              (fun m c => <[c := {| numericCount := numericCountOf rows c;
                                    sampleValue := get r0 c |}]> m) cols ∅).
Proof.
  intros H0. unfold columnStats. apply for_of_pure.
  intros m c _. rewrite count_loop. simpl.
  rewrite (objects_lookup _ _ H0). reflexivity.
Qed.

Lemma findCandidates_objects (cols : list string) (stats : gmap string ColStat) :
  (forall c, In c cols ->
     exists st, stats !! c = Some st /\ numericCount st = numericCountOf rows c) ->
  findCandidates (objects rows) cols stats
  = Normal (fold_left (pick rows) cols (Null, Null)).
Proof.
  intros Hst. unfold findCandidates. apply for_of_pure.
  intros [catCol numCol] c Hc.
  destruct (Hst c Hc) as [st [-> Hn]].
  unfold pick, numeric_candidate, threshold. rewrite objects_length, Hn.
  cbn [fst snd].
  destruct (Nat.min 5 (List.length rows / 2) <=? numericCountOf rows c)%nat;
    reflexivity.
Qed.

Lemma candidateLoop_objects :
  rows <> [] ->
  candidateLoop (objects rows) (columns rows) = Normal (candidatesOf rows).
Proof.
  intros Hne.
  assert (H0 : exists r0, rows !! 0%nat = Some r0)
    by (destruct rows; [congruence | eexists; reflexivity]).
  destruct H0 as [r0 H0]. unfold candidateLoop.
  rewrite (columnStats_objects r0 _ H0). simpl.
  apply findCandidates_objects.
  intros c Hc. eexists. split; [apply stats_lookup; exact Hc | reflexivity].
Qed.

Lemma selectColumns_objects :
  rows <> [] ->
  selectColumns (objects rows)
  = Normal (columns rows, catColOf rows, numColOf rows).
Proof.
  intros Hne. unfold selectColumns.
  assert (H0 : at_index (objects rows) 0 = Some (Some (default [] (rows !! 0%nat)))
               /\ map fst (default [] (rows !! 0%nat)) = columns rows)
    by (destruct rows; [congruence | split; reflexivity]).
  destruct H0 as [-> Hk]. simpl. rewrite Hk.
  rewrite (candidateLoop_objects Hne). reflexivity.
Qed.

Lemma ChartView_objects (ov : Value) :
  rows <> [] ->
  ChartView (Some (objects rows)) ov
  = buildChart (objects rows) ov (columns rows) (catColOf rows) (numColOf rows).
Proof.
  intros Hne. unfold ChartView.
  destruct (List.length (objects rows) =? 0)%nat eqn:Hlen.
  - apply Nat.eqb_eq in Hlen. rewrite objects_length in Hlen.
    destruct rows; [congruence | discriminate].
  - rewrite (selectColumns_objects Hne). reflexivity.
Qed.

(** The pie-or-bar branch. *)
Lemma buildChart_pie_bar (ov : Value) (cols : list string) (catCol numCol : Value) :
  truthy catCol = true -> truthy numCol = true ->
  buildChart (objects rows) ov cols catCol numCol
  = Normal (Some
      ((if strict_eq ov (Str "pie")
           || ((List.length rows <=? 10)%nat && negb (strict_eq ov (Str "bar")))
        then Pie else Bar)
         numCol catCol (chartDataOf rows (ToString catCol) (ToString numCol)))).
Proof.
  intros Hc Hn. unfold buildChart. rewrite Hc, Hn. simpl.
  rewrite !column_objects. simpl. rewrite !length_map.
  unfold chartDataOf, categories, numbers.
  destruct (strict_eq ov (Str "pie")
            || ((List.length rows <=? 10)%nat && negb (strict_eq ov (Str "bar"))));
    reflexivity.
Qed.

(** The line branch. *)
Lemma buildChart_line (ov : Value) (c : string) (catCol numCol : Value) :
  truthy catCol = false -> truthy numCol = true ->
  buildChart (objects rows) ov [c] catCol numCol
  = Normal (Some (Line c (map S (seq 0 (List.length rows))) (numbers rows c))).
Proof.
  intros Hc Hn. unfold buildChart. rewrite Hc, Hn. simpl.
  rewrite column_objects. simpl. rewrite objects_length.
  unfold numbers. do 3 f_equal.
  apply map_ext. intros i. lia.
Qed.

End ChartObjects.

Section ChartFacts.
Import Chart.

Lemma strict_eq_Str (v : Value) (s : string) :
  strict_eq v (Str s) = true <-> v = Str s.
Proof.
  destruct v; simpl; split; intros H; try discriminate.
  - apply String.eqb_eq in H. congruence.
  - inversion H; subst. apply String.eqb_refl.
Qed.

Lemma strict_eq_Str_false (v : Value) (s : string) :
  strict_eq v (Str s) = false <-> v <> Str s.
Proof.
  rewrite <- strict_eq_Str. destruct (strict_eq v (Str s)); split; congruence.
Qed.

Lemma truthy_Str (c : string) : truthy (Str c) = true <-> c <> "".
Proof.
  simpl. rewrite negb_true_iff. split.
  - intros H ->. discriminate.
  - intros H. destruct (String.eqb_spec c ""); congruence.
Qed.

Lemma selectColumns_nonempty (rows : list Row) r :
  selectColumns (objects rows) = Normal r -> rows <> [].
Proof. intros H ->. discriminate. Qed.

(** The test of line 98, as a proposition. *)
Lemma pie_test (ov : Value) (n : nat) :
  strict_eq ov (Str "pie") || ((n <=? 10)%nat && negb (strict_eq ov (Str "bar")))
  = true
  <-> ov = Str "pie" \/ ((n <= 10)%nat /\ ov <> Str "bar").
Proof.
  rewrite orb_true_iff, andb_true_iff, negb_true_iff, strict_eq_Str,
    strict_eq_Str_false, Nat.leb_le. reflexivity.
Qed.

(** With named columns the candidate loop is a first-match search. *)
Lemma pick_first_match (rows : list Row) (cols : list string) :
  (forall c, In c cols -> c <> "") ->
  forall st : Value * Value,
    fst (fold_left (pick rows) cols st)
    = (if truthy (fst st) then fst st
       else match List.find (categorical_candidate rows) cols with
            | Some c => Str c
            | None => fst st
            end)
    /\ snd (fold_left (pick rows) cols st)
       = (if truthy (snd st) then snd st
          else match List.find (numeric_candidate rows) cols with
               | Some c => Str c
               | None => snd st
               end).
Proof.
  induction cols as [|c cols IH]; intros Hne [cat num]; simpl.
  - split; [destruct (truthy cat) | destruct (truthy num)]; reflexivity.
  - assert (Hc : truthy (Str c) = true)
      by (apply truthy_Str, Hne; left; reflexivity).
    destruct (IH (fun x Hx => Hne x (or_intror Hx)) (pick rows (cat, num) c))
      as [IHc IHn].
    rewrite IHc, IHn. unfold pick, categorical_candidate. cbn [fst snd].
    destruct (numeric_candidate rows c); cbn [fst snd negb];
      destruct (truthy cat) eqn:Tc; destruct (truthy num) eqn:Tn;
      cbn [negb]; rewrite ?Hc, ?Tc, ?Tn; split; reflexivity.
Qed.

(** The classification rule and the first-match selection, for result sets
    whose columns all have a name. *)
Lemma first_match_named_columns (rows : list Row) :
  rows <> [] ->
  (forall c, In c (columns rows) -> c <> "") ->
  (forall c, numeric_candidate rows c = true
             <-> (Nat.min 5 (List.length rows / 2)
                  <= List.length
                       (List.filter (fun r => isNumeric (get r c))
                                    (firstn (Nat.min (List.length rows) 50) rows)))%nat)
  /\ (forall c, categorical_candidate rows c = negb (numeric_candidate rows c))
  /\ candidateLoop (objects rows) (columns rows)
     = Normal (match List.find (categorical_candidate rows) (columns rows) with
               | Some c => Str c
               | None => Null
               end,
               match List.find (numeric_candidate rows) (columns rows) with
               | Some c => Str c
               | None => Null
               end).
Proof.
  intros Hne Hnames. split; [|split].
  - intros c. unfold numeric_candidate, threshold, numericCountOf.
    rewrite Nat.leb_le.
    replace (firstn (Nat.min (List.length rows) 50) rows) with (firstn 50 rows);
      [reflexivity|].
    destruct (Nat.le_ge_cases (List.length rows) 50) as [H|H].
    + rewrite Nat.min_l by exact H. rewrite firstn_all.
      apply firstn_all2. exact H.
    + rewrite Nat.min_r by exact H. reflexivity.
  - reflexivity.
  - rewrite (candidateLoop_objects rows Hne). unfold candidatesOf.
    destruct (pick_first_match rows (columns rows) Hnames (Null, Null))
      as [Hc Hn].
    simpl in Hc, Hn.
    destruct (fold_left (pick rows) (columns rows) (Null, Null)) as [cat num].
    simpl in Hc, Hn. rewrite Hc, Hn. reflexivity.
Qed.

(** Both columns found: the chart of the pie-or-bar branch, by the test of
    line 98. *)
Lemma ChartView_pie_bar (rows : list Row) (ov : Value) (cols : list string)
      (catCol numCol : Value) :
  selectColumns (objects rows) = Normal (cols, catCol, numCol) ->
  truthy catCol = true ->
  truthy numCol = true ->
  ChartView (Some (objects rows)) ov
  = Normal (Some ((if strict_eq ov (Str "pie")
                      || ((List.length rows <=? 10)%nat
                          && negb (strict_eq ov (Str "bar")))
                   then Pie else Bar)
                    numCol catCol
                    (chartDataOf rows (ToString catCol) (ToString numCol)))).
Proof.
  intros Hsel Hc Hn.
  pose proof (selectColumns_nonempty _ _ Hsel) as Hne.
  rewrite (selectColumns_objects rows Hne) in Hsel.
  injection Hsel as Hcols Hcat Hnum.
  rewrite (ChartView_objects rows ov Hne), Hcat, Hnum.
  apply buildChart_pie_bar; assumption.
Qed.

(** When the test [catCol && numCol] of line 82 passes, the result is a pie
    chart exactly when the override is "pie", or the number of categories is
    at most 10 and the override is not "bar", and a bar chart exactly
    otherwise; without an override, up to 10 categories give a pie chart and
    more than 10 a bar chart.  The categories are the stringified values of
    [catCol], the values the coerced values of [numCol]. *)
Lemma pie_or_bar_decision (rows : list Row) (ov : Value) (cols : list string)
      (catCol numCol : Value) :
  selectColumns (objects rows) = Normal (cols, catCol, numCol) ->
  truthy catCol = true ->
  truthy numCol = true ->
  let chart := chartDataOf rows (ToString catCol) (ToString numCol) in
  let count := List.length (labels chart) in
  let pie := ov = Str "pie" \/ ((count <= 10)%nat /\ ov <> Str "bar") in
  let result := ChartView (Some (objects rows)) ov in
  (result = Normal (Some (Pie numCol catCol chart)) <-> pie)
  /\ (result = Normal (Some (Bar numCol catCol chart)) <-> ~ pie)
  /\ (ov = Null ->
      ((count <= 10)%nat -> result = Normal (Some (Pie numCol catCol chart)))
      /\ ((10 < count)%nat -> result = Normal (Some (Bar numCol catCol chart)))).
Proof.
  intros Hsel Hc Hn chart count pie result.
  assert (Hcount : count = List.length rows).
  { unfold count, chart, chartDataOf, categories. simpl. apply length_map. }
  assert (Hres : result
                 = Normal (Some ((if strict_eq ov (Str "pie")
                                     || ((List.length rows <=? 10)%nat
                                         && negb (strict_eq ov (Str "bar")))
                                  then Pie else Bar) numCol catCol chart)))
    by (apply (ChartView_pie_bar rows ov cols); assumption).
  assert (Htest : strict_eq ov (Str "pie")
                  || ((List.length rows <=? 10)%nat
                      && negb (strict_eq ov (Str "bar"))) = true <-> pie)
    by (unfold pie; rewrite Hcount; apply pie_test).
  destruct (strict_eq ov (Str "pie")
            || ((List.length rows <=? 10)%nat && negb (strict_eq ov (Str "bar"))))
    eqn:Hb; rewrite Hres.
  - assert (Hp : pie) by (apply Htest; reflexivity).
    split; [|split].
    + split; [intros _; exact Hp | reflexivity].
    + split; [discriminate | intros Hnp; contradiction].
    + intros Hov. split; [reflexivity|].
      intros Hgt. destruct Hp as [Hp|[Hle _]]; [congruence | lia].
  - assert (Hp : ~ pie) by (intros Hp; apply Htest in Hp; discriminate).
    split; [|split].
    + split; [discriminate | intros Hp'; contradiction].
    + split; [intros _; exact Hp | reflexivity].
    + intros Hov. split; [|reflexivity].
      intros Hle. exfalso. apply Hp. right. split; [exact Hle|].
      rewrite Hov. discriminate.
Qed.

(** With named columns, a result set that has a categorical and a numeric
    candidate passes the test of line 82, with the first column of each kind
    selected. *)
Lemma named_columns_both_found (rows : list Row) (cat num : string) :
  rows <> [] ->
  (forall c, In c (columns rows) -> c <> "") ->
  List.find (categorical_candidate rows) (columns rows) = Some cat ->
  List.find (numeric_candidate rows) (columns rows) = Some num ->
  selectColumns (objects rows) = Normal (columns rows, Str cat, Str num)
  /\ truthy (Str cat) = true /\ truthy (Str num) = true.
Proof.
  intros Hne Hnames Hcat Hnum.
  assert (Hc : truthy (Str cat) = true).
  { apply truthy_Str, Hnames. apply find_some in Hcat. tauto. }
  assert (Hn : truthy (Str num) = true).
  { apply truthy_Str, Hnames. apply find_some in Hnum. tauto. }
  split; [|split; assumption].
  rewrite (selectColumns_objects rows Hne).
  destruct (pick_first_match rows (columns rows) Hnames (Null, Null)) as [H1 H2].
  fold (candidatesOf rows) in H1, H2. simpl in H1, H2.
  rewrite Hcat in H1. rewrite Hnum in H2.
  unfold catColOf, numColOf, fallback. rewrite H1, H2, Hc. reflexivity.
Qed.

(** The first scenario: two categories, no override, a pie chart. *)
Example pie_chart_seats_by_block :
  ChartView (Some (objects seats_by_block)) Null
  = Normal (Some (Pie (Str "seats") (Str "block")
      {| labels := ["A"; "B"];
         datasets := [ {| label := "seats";
                          data := [10%float; 5%float];
                          backgroundColor :=
                            ["hsl(0 70% 60%)"; "hsl(47 70% 60%)"] |} ] |})).
Proof. by_evaluation. Qed.

(** C1. The rows [{"":"A",seats:10},{"":"B",seats:5}] have a categorical
    candidate (the column named by the empty string) and a numeric candidate
    ([seats]), and the loop finds both; with two categories and no override a
    pie chart with categories ["A","B"] and values [10,5] is due.  [ChartView]
    returns no chart: the test [catCol && numCol] of line 82 fails on the
    empty column name.  Under the name [block] the same rows give that pie
    chart. *)
Theorem C1_no_chart_on_unnamed_category :
  columns unnamed_category = [""; "seats"]
  /\ categorical_candidate unnamed_category "" = true
  /\ numeric_candidate unnamed_category "seats" = true
  /\ candidateLoop (objects unnamed_category) [""; "seats"]
     = Normal (Str "", Str "seats")
  /\ categories unnamed_category "" = ["A"; "B"]
  /\ numbers unnamed_category "seats" = [10%float; 5%float]
  /\ ChartView (Some (objects unnamed_category)) Null = Normal None
  /\ ChartView (Some (objects seats_by_block)) Null
     = Normal (Some (Pie (Str "seats") (Str "block")
                       (chartDataOf seats_by_block "block" "seats"))).
Proof. by_evaluation. Qed.

(** C2. On the result set [{"":1,"x":2},{"":3,"x":4}] both columns are
    numeric candidates by the classification rule, and the first of them in
    column order is the one named by the empty string; yet the candidate loop
    ends with [numCol = "x"]: the test [!numCol] takes the empty name for
    "not set yet" and overwrites it.  With the names [year] and [seats] the
    first numeric candidate, [year], is kept. *)
Theorem C2_first_match_lost_on_empty_name :
  columns unnamed_first = [""; "x"]
  /\ numeric_candidate unnamed_first "" = true
  /\ numeric_candidate unnamed_first "x" = true
  /\ List.find (numeric_candidate unnamed_first) (columns unnamed_first) = Some ""
  /\ candidateLoop (objects unnamed_first) (columns unnamed_first)
     = Normal (Null, Str "x")
  /\ List.find (numeric_candidate two_numeric) (columns two_numeric) = Some "year"
  /\ candidateLoop (objects two_numeric) (columns two_numeric)
     = Normal (Null, Str "year").
Proof. by_evaluation. Qed.

(** With a named column the line chart of the decision table is built:
    x is 1..N in row order, y the coerced values of the column. *)
Lemma line_chart_named_column (rows : list Row) (ov : Value) (c : string) :
  columns rows = [c] ->
  c <> "" ->
  numeric_candidate rows c = true ->
  ChartView (Some (objects rows)) ov
  = Normal (Some (Line c (seq 1 (List.length rows)) (numbers rows c))).
Proof.
  intros Hcols Hc Hnum.
  assert (Hne : rows <> []) by (intros ->; discriminate).
  rewrite (ChartView_objects rows ov Hne).
  unfold catColOf, numColOf, candidatesOf. rewrite Hcols. simpl.
  unfold pick. rewrite Hnum. simpl.
  rewrite <- seq_shift. apply buildChart_line; [reflexivity|].
  apply truthy_Str. exact Hc.
Qed.

Example line_chart_counts :
  ChartView (Some (objects counts)) Null
  = Normal (Some (Line "count" [1; 2; 3]%nat [3%float; 7%float; 2%float])).
Proof.
  rewrite (line_chart_named_column counts Null "count");
    [reflexivity | reflexivity | discriminate | vm_compute; reflexivity].
Qed.

(** C3. The result set [{"":3},{"":7},{"":2}] has exactly one column, that
    column is a numeric candidate and no categorical candidate is found; the
    line chart with x = [1,2,3] and y = [3,7,2] is due, but [ChartView]
    returns no chart: the test [numCol &&] of line 116 fails on the empty
    column name.  Under the name [count] the same rows give that line
    chart. *)
Theorem C3_no_line_chart_on_empty_name :
  columns unnamed_counts = [""]
  /\ numeric_candidate unnamed_counts "" = true
  /\ candidateLoop (objects unnamed_counts) [""] = Normal (Null, Str "")
  /\ numbers unnamed_counts "" = [3%float; 7%float; 2%float]
  /\ ChartView (Some (objects unnamed_counts)) Null = Normal None
  /\ ChartView (Some (objects counts)) Null
     = Normal (Some (Line "count" [1; 2; 3]%nat [3%float; 7%float; 2%float])).
Proof. by_evaluation. Qed.

(** On an array of objects [ChartView] always returns; a [null] entry among
    the sampled rows makes it throw. *)
Lemma ChartView_objects_total (rows : list Row) (ov : Value) :
  exists r, ChartView (Some (objects rows)) ov = Normal r.
Proof.
  destruct rows as [|r0 rest] eqn:Hrows; [eexists; reflexivity|].
  rewrite <- Hrows.
  assert (Hne : rows <> []) by (rewrite Hrows; discriminate).
  rewrite (ChartView_objects rows ov Hne). unfold buildChart.
  rewrite !column_objects.
  destruct (truthy (catColOf rows) && truthy (numColOf rows)).
  - simpl. destruct (_ || _); eexists; reflexivity.
  - destruct (_ && _); simpl; eexists; reflexivity.
Qed.

Example null_row_throws :
  ChartView (Some [Some [("count", Num 3)]; None]) Null = Throw TypeError.
Proof. by_evaluation. Qed.

(** C4. For an absent row set and for the empty row set, [ChartView] returns
    no chart, whatever the override; it does not throw: the guard of line 37
    returns before any row is read. *)
Theorem C4_empty_input_no_chart (ov : Value) :
  ChartView None ov = Normal None
  /\ ChartView (Some []) ov = Normal None.
Proof. split; reflexivity. Qed.

(** What a returned pie or bar chart was built from. *)
Lemma buildChart_pie_bar_inv (dataRows : list Item) (ov : Value)
      (cols : list string) (cat num numCol catCol : Value) (chart : ChartData) :
  buildChart dataRows ov cols cat num = Normal (Some (Pie numCol catCol chart))
  \/ buildChart dataRows ov cols cat num = Normal (Some (Bar numCol catCol chart)) ->
  numCol = num /\ catCol = cat
  /\ exists ls vs,
       column dataRows cat (Str "") ToString = Normal ls
       /\ column dataRows num (Num 0) ToNumber = Normal vs
       /\ chart = {| labels := ls;
                     datasets := [ {| label := ToString num;
                                      data := vs;
                                      backgroundColor :=
                                        map hsl (seq 0 (List.length ls)) |} ] |}.
Proof.
  unfold buildChart. intros H.
  destruct (truthy cat && truthy num).
  - destruct (column dataRows cat (Str "") ToString) as [ls|e]; simpl in H;
      [|destruct H; discriminate].
    destruct (column dataRows num (Num 0) ToNumber) as [vs|e]; simpl in H;
      [|destruct H; discriminate].
    destruct (strict_eq ov (Str "pie")
              || ((List.length ls <=? 10)%nat && negb (strict_eq ov (Str "bar"))));
      destruct H as [H|H]; try discriminate; injection H as <- <- <-;
      (split; [reflexivity | split; [reflexivity|]]);
      exists ls, vs; repeat split; reflexivity.
  - destruct (negb (truthy cat) && truthy num && (List.length cols =? 1)%nat).
    + destruct (column dataRows _ (Num 0) ToNumber); simpl in H;
        destruct H; discriminate.
    + destruct H; discriminate.
Qed.

Lemma column_Normal (dataRows : list Item) (key dflt : Value) {A}
      (conv : Value -> A) (ys : list A) :
  column dataRows key dflt conv = Normal ys ->
  List.length ys = List.length dataRows
  /\ forall i r, dataRows !! i = Some (Some r) ->
       ys !! i = Some (conv (coalesce (get r (ToString key)) dflt)).
Proof.
  unfold column. intros H. apply array_map_Normal in H. destruct H as [Hlen Hnth].
  split; [exact Hlen|]. intros i r Hi.
  destruct (Hnth i (Some r) Hi) as [y [Hy ->]].
  unfold Chart.member, bind, ret in Hy. injection Hy as <-. reflexivity.
Qed.

(** C5. In every pie or bar chart that [ChartView] returns, a row whose
    value in the categorical column is [null] or [undefined] has the empty
    string as its label, and a row whose value in the numeric column is
    [null] or [undefined] has the number 0 as its value. *)
Theorem C5_null_label_and_value (dataRows : list Item) (ov : Value)
        (numCol catCol : Value) (chart : ChartData) :
  ChartView (Some dataRows) ov = Normal (Some (Pie numCol catCol chart))
  \/ ChartView (Some dataRows) ov = Normal (Some (Bar numCol catCol chart)) ->
  exists ds,
    datasets chart = [ds]
    /\ List.length (labels chart) = List.length dataRows
    /\ List.length (data ds) = List.length dataRows
    /\ forall i r, dataRows !! i = Some (Some r) ->
         (nullish (get r (ToString catCol)) = true -> labels chart !! i = Some "")
         /\ (nullish (get r (ToString numCol)) = true ->
             data ds !! i = Some 0%float).
Proof.
  unfold ChartView. intros H.
  destruct (List.length dataRows =? 0)%nat; [destruct H; discriminate|].
  destruct (selectColumns dataRows) as [[[cols cat] num]|e]; simpl in H;
    [|destruct H; discriminate].
  apply buildChart_pie_bar_inv in H.
  destruct H as [-> [-> [ls [vs [Hls [Hvs ->]]]]]].
  apply column_Normal in Hls, Hvs.
  destruct Hls as [Hl1 Hl2]. destruct Hvs as [Hv1 Hv2].
  eexists. split; [reflexivity|]. simpl.
  split; [exact Hl1|]. split; [exact Hv1|].
  intros i r Hi. split; intros Hnull.
  - rewrite (Hl2 i r Hi). unfold coalesce. rewrite Hnull. reflexivity.
  - rewrite (Hv2 i r Hi). unfold coalesce. rewrite Hnull. reflexivity.
Qed.

(** A chart with a [null] category and a [null] value, as an instance of
    C5. *)
Lemma C5_null_label_and_value_witness :
  ChartView (Some (objects with_nulls)) Null
  = Normal (Some (Pie (Str "seats") (Str "block")
                    (chartDataOf with_nulls "block" "seats")))
  /\ labels (chartDataOf with_nulls "block" "seats") !! 0%nat = Some ""
  /\ exists ds, datasets (chartDataOf with_nulls "block" "seats") = [ds]
                /\ data ds !! 1%nat = Some 0%float.
Proof.
  assert (Hpie : ChartView (Some (objects with_nulls)) Null
                 = Normal (Some (Pie (Str "seats") (Str "block")
                                   (chartDataOf with_nulls "block" "seats"))))
    by (vm_compute; reflexivity).
  destruct (C5_null_label_and_value (objects with_nulls) Null _ _ _
              (or_introl Hpie)) as [ds [Hds [_ [_ Hrows]]]].
  split; [exact Hpie|]. split.
  - apply (proj1 (Hrows 0%nat [("block", Null); ("seats", Num 10)] eq_refl)).
    reflexivity.
  - exists ds. split; [exact Hds|].
    apply (proj2 (Hrows 1%nat [("block", Str "B"); ("seats", Null)] eq_refl)).
    reflexivity.
Defined.

(** [numCol] only ever holds [null] or the name of a column. *)
Lemma pick_snd_column (rows : list Row) (cols : list string) :
  forall st : Value * Value,
    snd (fold_left (pick rows) cols st) = snd st
    \/ exists c, In c cols /\ snd (fold_left (pick rows) cols st) = Str c.
Proof.
  induction cols as [|c cols IH]; intros st; simpl; [left; reflexivity|].
  destruct (IH (pick rows st c)) as [H|[c' [Hin H]]].
  - rewrite H. unfold pick.
    destruct (numeric_candidate rows c); cbn [snd]; [|left; reflexivity].
    destruct (negb (truthy (snd st))); [|left; reflexivity].
    right. exists c. split; [left; reflexivity | reflexivity].
  - right. exists c'. split; [right; exact Hin | exact H].
Qed.

(** [catCol] is still [null] after the loop only if no column classified
    as categorical. *)
Lemma pick_fst_Null (rows : list Row) (cols : list string) :
  forall st : Value * Value,
    fst (fold_left (pick rows) cols st) = Null ->
    fst st = Null /\ forall c, In c cols -> numeric_candidate rows c = true.
Proof.
  induction cols as [|c cols IH]; intros st H; simpl in *.
  - split; [exact H | intros c []].
  - destruct (IH _ H) as [Hst Hall]. unfold pick in Hst.
    destruct (numeric_candidate rows c) eqn:Hc; cbn [fst] in Hst.
    + split; [exact Hst|]. intros c' [<-|Hin]; [exact Hc | apply Hall, Hin].
    + destruct (truthy (fst st)) eqn:Ht; cbn [negb] in Hst; [|discriminate].
      rewrite Hst in Ht. discriminate.
Qed.

(** When both columns of a two-column result set are numeric candidates,
    the loop finds a numeric column and no categorical one. *)
Lemma two_numeric_candidates_found (rows : list Row) (a b : string) :
  columns rows = [a; b] -> a <> b ->
  numeric_candidate rows a = true -> numeric_candidate rows b = true ->
  truthy (snd (candidatesOf rows)) = true /\ fst (candidatesOf rows) = Null.
Proof.
  intros Hcols Hab Ha Hb. unfold candidatesOf. rewrite Hcols. simpl.
  unfold pick. rewrite Ha. cbn [fst snd truthy negb]. rewrite Hb. cbn [fst snd].
  split; [|reflexivity].
  destruct (String.eqb_spec a "") as [->|Hne]; cbn [negb truthy].
  - apply truthy_Str. congruence.
  - destruct (String.eqb_spec a ""); [contradiction|]. reflexivity.
Qed.

(** The fallback, as the code tests it: two columns, [numCol] set and
    [catCol] not set after the loop.  The remaining column becomes
    [catCol]. *)
Lemma fallback_other_column (rows : list Row) (a b : string)
      (cat0 num0 : Value) :
  columns rows = [a; b] ->
  a <> b ->
  candidatesOf rows = (cat0, num0) ->
  truthy num0 = true ->
  truthy cat0 = false ->
  exists num other : string,
    num0 = Str num
    /\ ((num = a /\ other = b) \/ (num = b /\ other = a))
    /\ catColOf rows = Str other.
Proof.
  intros Hcols Hab Hcand Hnum Hcat.
  assert (Hsnd : snd (candidatesOf rows) = num0) by (rewrite Hcand; reflexivity).
  destruct (pick_snd_column rows (columns rows) (Null, Null)) as [H|[num [Hin H]]];
    fold (candidatesOf rows) in H; rewrite Hsnd in H;
    [rewrite H in Hnum; discriminate|].
  rewrite Hcols in Hin.
  unfold catColOf, fallback. rewrite Hcand. cbn [fst snd].
  rewrite Hcat, Hnum, H, Hcols. simpl.
  destruct Hin as [<-|[<-|[]]].
  - exists a, b. split; [reflexivity|]. split; [left; split; reflexivity|].
    rewrite String.eqb_refl. simpl.
    destruct (String.eqb_spec b a); [congruence | reflexivity].
  - exists b, a. split; [reflexivity|]. split; [right; split; reflexivity|].
    destruct (String.eqb_spec a b); [congruence | reflexivity].
Qed.

(** C6. In a result set with exactly two columns, both of them numeric
    candidates (so that a numeric candidate is found and no categorical one),
    the loop leaves [catCol] at [null] and the fallback makes the remaining
    column, the one that is not [numCol], the categorical column, although it
    classifies as a numeric candidate.  The chart is then built with the
    values of that remaining column as its categories. *)
Theorem C6_two_column_fallback (rows : list Row) (a b : string) :
  columns rows = [a; b] ->
  a <> b ->
  numeric_candidate rows a = true ->
  numeric_candidate rows b = true ->
  exists num other : string,
    ((num = a /\ other = b) \/ (num = b /\ other = a))
    /\ candidateLoop (objects rows) [a; b] = Normal (Null, Str num)
    /\ selectColumns (objects rows) = Normal ([a; b], Str other, Str num)
    /\ categorical_candidate rows other = false
    /\ (other <> "" ->
        forall ov, exists kind,
          (kind = Pie \/ kind = Bar)
          /\ ChartView (Some (objects rows)) ov
             = Normal (Some (kind (Str num) (Str other)
                               (chartDataOf rows other num)))).
Proof.
  intros Hcols Hab Ha Hb.
  assert (Hne : rows <> []) by (intros ->; discriminate).
  destruct (two_numeric_candidates_found rows a b Hcols Hab Ha Hb) as [Hnum Hcat].
  destruct (candidatesOf rows) as [cat0 num0] eqn:Hcand.
  cbn [fst snd] in Hnum, Hcat. subst cat0.
  destruct (fallback_other_column rows a b Null num0 Hcols Hab Hcand Hnum eq_refl)
    as [num [other [-> [Hcase Hcatcol]]]].
  exists num, other. split; [exact Hcase|].
  split; [|split; [|split]].
  - rewrite <- Hcols, (candidateLoop_objects rows Hne), Hcand. reflexivity.
  - rewrite (selectColumns_objects rows Hne), Hcols, Hcatcol.
    unfold numColOf. rewrite Hcand. reflexivity.
  - unfold categorical_candidate.
    destruct Hcase as [[_ ->]|[_ ->]]; [rewrite Hb | rewrite Ha]; reflexivity.
  - intros Ho ov.
    exists (if strict_eq ov (Str "pie")
               || ((List.length rows <=? 10)%nat && negb (strict_eq ov (Str "bar")))
            then Pie else Bar).
    split; [destruct (_ || _); [left | right]; reflexivity|].
    rewrite (ChartView_objects rows ov Hne), Hcatcol.
    unfold numColOf. rewrite Hcand. cbn [snd].
    apply (buildChart_pie_bar rows ov (columns rows) (Str other) (Str num)).
    + apply truthy_Str. exact Ho.
    + exact Hnum.
Qed.

(** Two numeric columns, [year] and [seats]: [seats] becomes the
    categorical column although it is a numeric candidate. *)
Lemma C6_two_column_fallback_witness :
  candidateLoop (objects two_numeric) ["year"; "seats"] = Normal (Null, Str "year")
  /\ selectColumns (objects two_numeric)
     = Normal (["year"; "seats"], Str "seats", Str "year")
  /\ categorical_candidate two_numeric "seats" = false.
Proof.
  assert (Hab : "year" <> "seats") by discriminate.
  destruct (C6_two_column_fallback two_numeric "year" "seats"
              eq_refl Hab eq_refl eq_refl)
    as [num [other [Hcase [Hloop [Hsel [Hcat _]]]]]].
  destruct Hcase as [[-> ->]|[-> ->]].
  - split; [exact Hloop|]. split; [exact Hsel | exact Hcat].
  - vm_compute in Hloop. discriminate Hloop.
Defined.

(** *** Result sets of a single row *)

(** The threshold of a single row is 0, so every column is a numeric
    candidate, whatever it holds. *)
Lemma single_row_all_numeric (r : Row) (c : string) :
  threshold [r] = 0%nat
  /\ numeric_candidate [r] c = true
  /\ categorical_candidate [r] c = false.
Proof. repeat split. Qed.

(** The loop leaves [catCol] at [null]; a categorical column can only come
    from the two-column fallback. *)
Lemma single_row_catCol (r : Row) :
  fst (candidatesOf [r]) = Null
  /\ (truthy (catColOf [r]) = true -> List.length (columns [r]) = 2%nat).
Proof.
  assert (H : forall cols st, fst st = Null ->
                fst (fold_left (pick [r]) cols st) = Null).
  { induction cols as [|c cols IH]; intros st Hst; simpl; [exact Hst|].
    apply IH. exact Hst. }
  assert (Hnull : fst (candidatesOf [r]) = Null) by (apply H; reflexivity).
  split; [exact Hnull|].
  unfold catColOf, fallback. rewrite Hnull. cbn [truthy negb andb].
  destruct (List.length (columns [r]) =? 2)%nat eqn:Hlen.
  - intros _. apply Nat.eqb_eq. exact Hlen.
  - discriminate.
Qed.

(** With a named column, one row and one column give a line chart, whatever
    the type of the value. *)
Lemma single_row_named_column_line (c : string) (v ov : Value) :
  c <> "" ->
  ChartView (Some (objects [[(c, v)]])) ov
  = Normal (Some (Line c [1%nat] [ToNumber (coalesce v (Num 0))])).
Proof.
  intros Hc.
  rewrite (line_chart_named_column [[(c, v)]] ov c);
    [|reflexivity | exact Hc | reflexivity].
  unfold numbers. simpl. rewrite String.eqb_refl. reflexivity.
Qed.

(** C9. A single row holding the text "abc": its one column is a numeric
    candidate (the threshold is 0) and no column is categorical.  Under the
    column name "note" the line chart is returned, with NaN as the plotted
    value; under the empty column name no chart is returned, because the test
    [numCol &&] of line 116 fails on the empty name. *)
Theorem C9_single_row_empty_name :
  threshold (one_text "") = 0%nat
  /\ numeric_candidate (one_text "") "" = true
  /\ candidateLoop (objects (one_text "")) [""] = Normal (Null, Str "")
  /\ ChartView (Some (objects (one_text "note"))) Null
     = Normal (Some (Line "note" [1%nat] [nan]))
  /\ ChartView (Some (objects (one_text ""))) Null = Normal None.
Proof. by_evaluation. Qed.

(** *** The override *)

(** The override is read in the pie-or-bar branch only. *)
Lemma buildChart_line_any_override (dataRows : list Item) (ov ov' : Value)
      (cols : list string) (cat num : Value) :
  is_line (buildChart dataRows ov cols cat num)
  = is_line (buildChart dataRows ov' cols cat num)
  /\ forall col xs vs,
       buildChart dataRows ov cols cat num = Normal (Some (Line col xs vs)) ->
       buildChart dataRows ov' cols cat num = Normal (Some (Line col xs vs)).
Proof.
  unfold buildChart.
  destruct (truthy cat && truthy num).
  - destruct (column dataRows cat (Str "") ToString) as [ls|e]; simpl;
      [|split; [reflexivity | discriminate]].
    destruct (column dataRows num (Num 0) ToNumber) as [vs|e]; simpl;
      [|split; [reflexivity | discriminate]].
    destruct (strict_eq ov (Str "pie") || _), (strict_eq ov' (Str "pie") || _);
      (split; [reflexivity | discriminate]).
  - split; [reflexivity | intros col xs vs H; exact H].
Qed.

Lemma ChartView_line_any_override (dataRows : option (list Item)) (ov ov' : Value) :
  is_line (ChartView dataRows ov) = is_line (ChartView dataRows ov')
  /\ forall col xs vs,
       ChartView dataRows ov = Normal (Some (Line col xs vs)) ->
       ChartView dataRows ov' = Normal (Some (Line col xs vs)).
Proof.
  unfold ChartView. destruct dataRows as [rows|];
    [|split; [reflexivity | discriminate]].
  destruct (List.length rows =? 0)%nat; [split; [reflexivity | discriminate]|].
  destruct (selectColumns rows) as [[[cols cat] num]|e]; simpl;
    [|split; [reflexivity | discriminate]].
  apply buildChart_line_any_override.
Qed.

(** C10, as stated, fails: on the single-column result set
    [{count:3},{count:7},{count:2}] an override of "line" yields a line
    chart. *)
Lemma C10_line_override_counterexample :
  ChartView (Some (objects counts)) (Str "line")
  = Normal (Some (Line "count" [1; 2; 3]%nat [3%float; 7%float; 2%float]))
  /\ ~ (forall dataRows : option (list Item),
          is_line (ChartView dataRows (Str "line")) = false).
Proof.
  assert (H : ChartView (Some (objects counts)) (Str "line")
              = Normal (Some (Line "count" [1; 2; 3]%nat
                                [3%float; 7%float; 2%float])))
    by (vm_compute; reflexivity).
  split; [exact H|].
  intros Hall. specialize (Hall (Some (objects counts))).
  rewrite H in Hall. discriminate.
Qed.

(** C10, amended.  The override only chooses between pie and bar, and only
    when [catCol] and [numCol] are both present: an override of "line" gives
    what no override gives (with both columns present, a bar chart for more
    than 10 categories and a pie chart for at most 10, never a line chart);
    and no override, "bar" and "pie" included, forces or suppresses the line
    chart of a single-numeric-column result set. *)
Theorem C10_override_scope (dataRows : option (list Item)) :
  ChartView dataRows (Str "line") = ChartView dataRows Null
  /\ (forall (rows : list Row) (cols : list string) (catCol numCol : Value),
        dataRows = Some (objects rows) ->
        selectColumns (objects rows) = Normal (cols, catCol, numCol) ->
        truthy catCol = true ->
        truthy numCol = true ->
        let chart := chartDataOf rows (ToString catCol) (ToString numCol) in
        ((10 < List.length (labels chart))%nat ->
         ChartView dataRows (Str "line")
         = Normal (Some (Bar numCol catCol chart)))
        /\ ((List.length (labels chart) <= 10)%nat ->
            ChartView dataRows (Str "line")
            = Normal (Some (Pie numCol catCol chart))))
  /\ (forall ov : Value,
        is_line (ChartView dataRows ov) = is_line (ChartView dataRows Null))
  /\ (forall (ov ov' : Value) col xs vs,
        ChartView dataRows ov = Normal (Some (Line col xs vs)) ->
        ChartView dataRows ov' = Normal (Some (Line col xs vs))).
Proof.
  split; [|split; [|split]].
  - unfold ChartView. destruct dataRows as [rows|]; [|reflexivity].
    destruct (List.length rows =? 0)%nat; [reflexivity|].
    destruct (selectColumns rows) as [[[cols cat] num]|e]; reflexivity.
  - intros rows cols catCol numCol -> Hsel Hc Hn chart.
    assert (Hcount : List.length (labels chart) = List.length rows).
    { unfold chart, chartDataOf, categories. simpl. apply length_map. }
    rewrite (ChartView_pie_bar rows (Str "line") cols catCol numCol Hsel Hc Hn).
    fold chart. rewrite Hcount. simpl.
    split; intros H.
    + destruct (Nat.leb_spec (List.length rows) 10); [lia | reflexivity].
    + destruct (Nat.leb_spec (List.length rows) 10); [reflexivity | lia].
  - intros ov. apply ChartView_line_any_override.
  - intros ov ov'. apply ChartView_line_any_override.
Qed.

(** A line chart under an override of "bar", and a pie chart under an
    override of "line", as instances of C10. *)
Lemma C10_override_scope_witness :
  ChartView (Some (objects counts)) (Str "bar")
  = Normal (Some (Line "count" [1; 2; 3]%nat [3%float; 7%float; 2%float]))
  /\ ChartView (Some (objects seats_by_block)) (Str "line")
     = Normal (Some (Pie (Str "seats") (Str "block")
                       (chartDataOf seats_by_block "block" "seats"))).
Proof.
  split.
  - apply (proj2 (proj2 (proj2 (C10_override_scope (Some (objects counts)))))
             Null (Str "bar")).
    vm_compute. reflexivity.
  - apply (proj2 (proj1 (proj2 (C10_override_scope
                                  (Some (objects seats_by_block))))
                    seats_by_block ["block"; "seats"] (Str "block") (Str "seats")
                    eq_refl eq_refl eq_refl eq_refl)).
    simpl. lia.
Defined.

End ChartFacts.

(** *** The session identifier *)

Section SessionFacts.
Import Session.

Lemma uuid_nonempty (bs : list ascii) : uuid_of_bytes bs <> "".
Proof. unfold uuid_of_bytes, hex_byte. simpl. discriminate. Qed.

Lemma fresh_id_nonempty (w : Browser) : fresh_id w <> "".
Proof.
  unfold fresh_id. destruct (has_randomUUID w).
  - apply uuid_nonempty.
  - simpl. discriminate.
Qed.

(** A persisted, non-empty identifier is returned and nothing changes. *)
Lemma getSessionId_persisted (w : Browser) (items : gmap string string)
      (writable : bool) (sid : string) :
  localStorage w = Store items writable ->
  items !! "agentic_session_id" = Some sid ->
  sid <> "" ->
  getSessionId w = (Normal (Str sid), w).
Proof.
  intros Hst Hsid Hne.
  unfold getSessionId, try_catch, mbind, getItem. rewrite Hst, Hsid.
  assert (Ht : truthy (Str sid) = true).
  { simpl. destruct (String.eqb_spec sid ""); [contradiction | reflexivity]. }
  rewrite Ht. reflexivity.
Qed.

(** With working storage and nothing persisted, a fresh identifier is
    generated, stored and returned. *)
Lemma getSessionId_fresh (w : Browser) (items : gmap string string) :
  localStorage w = Store items true ->
  items !! "agentic_session_id" = None \/ items !! "agentic_session_id" = Some "" ->
  getSessionId w
  = (Normal (Str (fresh_id w)),
     with_storage (next_draw w)
       (Store (<["agentic_session_id" := fresh_id w]> items) true)).
Proof.
  intros Hst Hnone.
  unfold getSessionId, try_catch, mbind, getItem, fresh_id. rewrite Hst.
  destruct Hnone as [-> | ->]; simpl;
    destruct (has_randomUUID w) eqn:Hu;
    unfold randomUUID, fallback_id, setItem, next_draw, with_storage, mret;
    simpl; rewrite Hst, ?Hu; reflexivity.
Qed.

(** After a call with working storage a non-empty identifier is
    persisted, and it is the one the call returned. *)
Lemma getSessionId_persists (w : Browser) (items : gmap string string) :
  localStorage w = Store items true ->
  exists sid items',
    sid <> ""
    /\ fst (getSessionId w) = Normal (Str sid)
    /\ localStorage (snd (getSessionId w)) = Store items' true
    /\ items' !! "agentic_session_id" = Some sid.
Proof.
  intros Hst.
  destruct (items !! "agentic_session_id") as [sid|] eqn:Hsid.
  - destruct (String.eqb_spec sid "") as [->|Hne].
    + exists (fresh_id w), (<["agentic_session_id" := fresh_id w]> items).
      rewrite (getSessionId_fresh w items Hst (or_intror Hsid)). simpl.
      repeat split; [apply fresh_id_nonempty | apply lookup_insert_eq].
    + exists sid, items.
      rewrite (getSessionId_persisted w items true sid Hst Hsid Hne).
      repeat split; assumption.
  - exists (fresh_id w), (<["agentic_session_id" := fresh_id w]> items).
    rewrite (getSessionId_fresh w items Hst (or_introl Hsid)). simpl.
    repeat split; [apply fresh_id_nonempty | apply lookup_insert_eq].
Qed.

(** C7. With working storage: a session id that is already persisted is
    returned unchanged, and nothing is written (session ids are the tokens
    this function generates, which are never empty, and the state a call
    leaves is such a state); otherwise a fresh id is generated, persisted and
    returned; and every call returns the token the first call returned. *)
Theorem C7_session_id_stable (w : Browser) (items : gmap string string) :
  localStorage w = Store items true ->
  (forall sid, items !! "agentic_session_id" = Some sid -> sid <> "" ->
               getSessionId w = (Normal (Str sid), w))
  /\ getSessionId (snd (getSessionId w))
     = (fst (getSessionId w), snd (getSessionId w))
  /\ (items !! "agentic_session_id" = None
      \/ items !! "agentic_session_id" = Some "" ->
      fresh_id w <> ""
      /\ fst (getSessionId w) = Normal (Str (fresh_id w))
      /\ localStorage (snd (getSessionId w))
         = Store (<["agentic_session_id" := fresh_id w]> items) true)
  /\ exists sid, sid <> ""
       /\ forall n, fst (getSessionId (after n w)) = Normal (Str sid).
Proof.
  intros Hst.
  destruct (getSessionId_persists w items Hst)
    as [sid [items' [Hne [Hfst [Hst' Hsid]]]]].
  pose proof (getSessionId_persisted _ items' true sid Hst' Hsid Hne) as Hagain.
  split; [|split; [|split]].
  - intros sid' Hsid' Hne'.
    apply (getSessionId_persisted w items true sid' Hst Hsid' Hne').
  - rewrite Hagain, Hfst. reflexivity.
  - intros Hnone. rewrite (getSessionId_fresh w items Hst Hnone). simpl.
    repeat split. apply fresh_id_nonempty.
  - exists sid. split; [exact Hne|].
    assert (Hafter : forall n, after (S n) w = snd (getSessionId w)).
    { induction n as [|n IH]; [reflexivity|].
      change (after (S (S n)) w) with (snd (getSessionId (after (S n) w))).
      rewrite IH, Hagain. reflexivity. }
    intros [|n]; [exact Hfst|].
    rewrite Hafter, Hagain. reflexivity.
Qed.

(** A first visit: the identifier generated by the first call is the one
    every later call returns. *)
Lemma C7_session_id_stable_witness :
  fst (getSessionId (after 0 (sample_browser ∅)))
  = Normal (Str "c8610000-0000-4000-8000-000000000000")
  /\ fst (getSessionId (after 3 (sample_browser ∅)))
     = Normal (Str "c8610000-0000-4000-8000-000000000000").
Proof.
  destruct (C7_session_id_stable (sample_browser ∅) ∅ eq_refl)
    as [_ [_ [_ [sid [_ Hall]]]]].
  assert (H0 : fst (getSessionId (after 0 (sample_browser ∅)))
               = Normal (Str "c8610000-0000-4000-8000-000000000000"))
    by (vm_compute; reflexivity).
  split; [exact H0|].
  rewrite (Hall 3%nat), <- (Hall 0%nat). exact H0.
Defined.

End SessionFacts.

(** *** The start-up scripts *)

Section StartupFacts.
Import Startup.

(** C8, as stated, fails for start.sh: with [REINDEX_KB=false] the reindex
    job still runs. *)
Lemma C8_start_sh_counterexample :
  toggle {["REINDEX_KB" := "false"]} = "false"
  /\ ran ["./scripts/reindex_kb.sh"] 0
         (snd (start_sh (fun _ => 0%nat) {["REINDEX_KB" := "false"]}))
  /\ ~ (forall sys env st,
          ran ["./scripts/reindex_kb.sh"] st (snd (start_sh sys env)) ->
          toggle env = "true").
Proof.
  assert (Hran : ran ["./scripts/reindex_kb.sh"] 0
                     (snd (start_sh (fun _ => 0%nat) {["REINDEX_KB" := "false"]}))).
  { unfold ran. vm_compute. tauto. }
  split; [vm_compute; reflexivity|]. split; [exact Hran|].
  intros Hall. specialize (Hall _ _ _ Hran). vm_compute in Hall. discriminate.
Qed.

(** C8, amended.  The entrypoint runs the reindex job exactly when
    [REINDEX_KB], defaulting to "true", equals "true"; start.sh runs it on
    every start-up, whatever the toggle, once its wait has returned.  In both
    scripts a failing reindex job is logged and ignored: the script goes on
    and ends by launching the service. *)
Theorem C8_startup_reindex (sys : list string -> nat) (env : gmap string string)
        (args : list string) :
  let job := ["/app/scripts/reindex_kb.sh"; "/app/knowledge_base"] in
  let job' := ["./scripts/reindex_kb.sh"] in
  let server := ["uvicorn"; "app:app"; "--host"; "0.0.0.0"; "--port"; "8000"] in
  ((exists st, ran job st (snd (entrypoint sys env args))) <-> toggle env = "true")
  /\ (toggle env = "true" -> sys job <> 0%nat ->
      logged "reindex failed, continuing..." (snd (entrypoint sys env args)))
  /\ (args <> [] -> fst (entrypoint sys env args) = Execd args)
  /\ (sys ["sleep"; "5"] = 0%nat ->
      ran job' (sys job') (snd (start_sh sys env))
      /\ (sys job' <> 0%nat ->
          logged "Reindex failed — continuing startup." (snd (start_sh sys env)))
      /\ fst (start_sh sys env) = Execd server).
Proof.
  intros job job' server.
  unfold entrypoint, start_sh, toggle, ran, logged, script, andthen, errexit,
    orelse, external, echo, skip, exec.
  split; [|split; [|split]].
  - destruct (String.eqb_spec (expand_default env "REINDEX_KB" "true") "true")
      as [Heq|Hneq].
    + split; [intros _; exact Heq|]. intros _. exists (sys job). fold job.
      destruct (sys job), args; simpl; tauto.
    + split; [|intros; contradiction].
      intros [st Hin]. destruct args; simpl in Hin; destruct Hin.
  - intros Heq Hfail. rewrite Heq. simpl. fold job.
    destruct (sys job); [contradiction|]. destruct args; simpl; tauto.
  - intros Hargs.
    destruct (String.eqb (expand_default env "REINDEX_KB" "true") "true").
    + simpl. fold job. destruct (sys job), args; simpl; congruence.
    + destruct args; simpl; congruence.
  - intros Hsleep. simpl. rewrite Hsleep. simpl. fold job'.
    destruct (sys job') eqn:Hjob; simpl.
    + repeat split; [tauto | intros; contradiction].
    + repeat split; tauto.
Qed.

(** A start-up whose reindex job fails, in both scripts. *)
Lemma C8_startup_reindex_witness :
  fst (entrypoint (fun _ => 1%nat) ∅ ["uvicorn"]) = Execd ["uvicorn"]
  /\ logged "reindex failed, continuing..."
            (snd (entrypoint (fun _ => 1%nat) ∅ ["uvicorn"]))
  /\ fst (start_sh (fun argv => if decide (argv = ["sleep"; "5"]) then 0 else 1)%nat
                   {["REINDEX_KB" := "false"]})
     = Execd ["uvicorn"; "app:app"; "--host"; "0.0.0.0"; "--port"; "8000"].
Proof.
  pose proof (C8_startup_reindex (fun _ => 1%nat) ∅ ["uvicorn"]) as He.
  pose proof (C8_startup_reindex
                (fun argv => if decide (argv = ["sleep"; "5"]) then 0 else 1)%nat
                {["REINDEX_KB" := "false"]} []) as Hs.
  simpl in He, Hs.
  destruct He as [_ [Hlog [Hexec _]]]. destruct Hs as [_ [_ [_ Hstart]]].
  split; [apply Hexec; discriminate|].
  split; [apply Hlog; [reflexivity | discriminate]|].
  apply Hstart. reflexivity.
Defined.

End StartupFacts.

(* ===================================================================== *)
(** ** Further properties of [ChartView] *)
(* ===================================================================== *)

Section ChartMore.
Import Chart Tables.

(** *** Which exceptions, and when *)

Lemma bind_TypeError {A B} (m : Completion A) (k : A -> Completion B) :
  (forall e, m = Throw e -> e = TypeError) ->
  (forall a e, k a = Throw e -> e = TypeError) ->
  forall e, bind m k = Throw e -> e = TypeError.
Proof.
  intros Hm Hk e H. destruct m as [a|e']; simpl in H.
  - exact (Hk a e H).
  - apply Hm. congruence.
Qed.

Lemma for_of_TypeError {A S} (l : list A) (body : S -> A -> Completion S) :
  (forall s x e, body s x = Throw e -> e = TypeError) ->
  forall s e, for_of l body s = Throw e -> e = TypeError.
Proof.
  intros Hb. induction l as [|x l IH]; intros s e H; simpl in H.
  - discriminate.
  - apply (bind_TypeError _ _ (Hb s x) (fun s' => IH s') e H).
Qed.

Lemma array_map_TypeError {A B} (f : A -> Completion B) (l : list A) :
  (forall x e, f x = Throw e -> e = TypeError) ->
  forall e, array_map f l = Throw e -> e = TypeError.
Proof.
  intros Hf. induction l as [|x l IH]; intros e H; simpl in H.
  - discriminate.
  - apply (bind_TypeError _ _ (Hf x)) in H; [exact H|].
    intros y e' H'. apply (bind_TypeError _ _ IH) in H'; [exact H'|].
    intros ys e'' H''. discriminate.
Qed.

Lemma member_TypeError (x : option Item) (key : Value) :
  forall e, member x key = Throw e -> e = TypeError.
Proof.
  intros e H. unfold Chart.member, ret in H.
  destruct x as [[r|]|]; congruence.
Qed.

Lemma column_TypeError (dataRows : list Item) (key dflt : Value) {A}
      (conv : Value -> A) :
  forall e, column dataRows key dflt conv = Throw e -> e = TypeError.
Proof.
  apply array_map_TypeError. intros r e H.
  apply (bind_TypeError _ _ (member_TypeError _ _)) in H; [exact H|].
  intros v e' H'. discriminate.
Qed.

Lemma selectColumns_TypeError (dataRows : list Item) :
  forall e, selectColumns dataRows = Throw e -> e = TypeError.
Proof.
  unfold selectColumns. apply bind_TypeError.
  - intros e H. unfold Object_keys, ret in H.
    destruct (at_index dataRows 0) as [[r|]|]; congruence.
  - intros cols. apply bind_TypeError; [|intros sel e H; discriminate].
    unfold candidateLoop. apply bind_TypeError.
    + unfold columnStats. apply for_of_TypeError. intros m c.
      apply bind_TypeError.
      * apply for_of_TypeError. intros n i.
        apply bind_TypeError; [apply member_TypeError|].
        intros v e H. discriminate.
      * intros n. apply bind_TypeError; [apply member_TypeError|].
        intros v e H. discriminate.
    + intros stats. unfold findCandidates. apply for_of_TypeError.
      intros [cat num] c e H.
      destruct (stats !! c) as [st|]; [|congruence].
      destruct (_ <=? _)%nat; discriminate.
Qed.

Lemma buildChart_TypeError (dataRows : list Item) (ov : Value)
      (cols : list string) (cat num : Value) :
  forall e, buildChart dataRows ov cols cat num = Throw e -> e = TypeError.
Proof.
  unfold buildChart. destruct (truthy cat && truthy num).
  - apply bind_TypeError; [apply column_TypeError|]. intros ls.
    apply bind_TypeError; [apply column_TypeError|]. intros vs e H.
    destruct (_ || _); discriminate.
  - destruct (_ && _); [|discriminate].
    apply bind_TypeError; [apply column_TypeError|]. intros vs e H. discriminate.
Qed.

(** An array either has a [null] entry or is an array of objects. *)
Lemma null_entry_or_objects (dataRows : list Item) :
  In None dataRows \/ exists rows, dataRows = objects rows.
Proof.
  induction dataRows as [|[r|] l IH].
  - right. exists []. reflexivity.
  - destruct IH as [H|[rows ->]].
    + left. right. exact H.
    + right. exists (r :: rows). reflexivity.
  - left. left. reflexivity.
Qed.

Lemma column_no_null (dataRows : list Item) (key dflt : Value) {A}
      (conv : Value -> A) (ys : list A) :
  column dataRows key dflt conv = Normal ys -> ~ In None dataRows.
Proof.
  unfold column. intros H Hin. apply array_map_Normal in H.
  destruct H as [_ Hnth].
  apply (proj2 (list_elem_of_In _ _)) in Hin.
  apply list_elem_of_lookup in Hin. destruct Hin as [i Hi].
  destruct (Hnth i None Hi) as [y [Hy _]]. discriminate.
Qed.

(** X1. The only exception [ChartView] raises is a TypeError, and only on
    an array with a [null] entry; a [null] first entry always raises it; and
    whenever a chart is returned, every entry of the array is an object. *)
Theorem X1_ChartView_exceptions (dataRows : list Item) (ov : Value) :
  (forall e, ChartView (Some dataRows) ov = Throw e ->
             e = TypeError /\ In None dataRows)
  /\ (forall rest, dataRows = None :: rest ->
                   ChartView (Some dataRows) ov = Throw TypeError)
  /\ (forall el, ChartView (Some dataRows) ov = Normal (Some el) ->
                 ~ In None dataRows).
Proof.
  split; [|split].
  - intros e H. split.
    + unfold ChartView in H.
      destruct (List.length dataRows =? 0)%nat; [discriminate|].
      apply (bind_TypeError _ _ (selectColumns_TypeError dataRows)) in H;
        [exact H|].
      intros [[cols cat] num]. apply buildChart_TypeError.
    + destruct (null_entry_or_objects dataRows) as [Hin|[rows ->]]; [exact Hin|].
      destruct (ChartView_objects_total rows ov) as [r Hr]. congruence.
  - intros rest ->. reflexivity.
  - intros el H. unfold ChartView in H.
    destruct (List.length dataRows =? 0)%nat; [discriminate|].
    destruct (selectColumns dataRows) as [[[cols cat] num]|e]; simpl in H;
      [|discriminate].
    unfold buildChart in H.
    destruct (truthy cat && truthy num).
    + destruct (column dataRows cat (Str "") ToString) as [ls|e] eqn:Hls;
        [|discriminate].
      apply (column_no_null _ _ _ _ _ Hls).
    + destruct (_ && _); [|discriminate].
      destruct (column dataRows _ (Num 0) ToNumber) as [vs|e] eqn:Hvs;
        [|discriminate].
      apply (column_no_null _ _ _ _ _ Hvs).
Qed.

(** *** What the selected columns are *)

(** Each variable of the candidate loop holds its initial value or the name
    of a column of its own kind. *)
Lemma pick_kinds (rows : list Row) (cols : list string) :
  forall st : Value * Value,
    (fst (fold_left (pick rows) cols st) = fst st
     \/ exists c, In c cols /\ categorical_candidate rows c = true
                  /\ fst (fold_left (pick rows) cols st) = Str c)
    /\ (snd (fold_left (pick rows) cols st) = snd st
        \/ exists c, In c cols /\ numeric_candidate rows c = true
                     /\ snd (fold_left (pick rows) cols st) = Str c).
Proof.
  induction cols as [|c cols IH]; intros st; simpl; [split; left; reflexivity|].
  destruct (IH (pick rows st c)) as [Hf Hs]. split.
  - destruct Hf as [Hf|[c' [Hin [Hk Hf]]]].
    + rewrite Hf. unfold pick, categorical_candidate.
      destruct (numeric_candidate rows c) eqn:Hc; cbn [fst]; [left; reflexivity|].
      destruct (negb (truthy (fst st))); [|left; reflexivity].
      right. exists c. unfold categorical_candidate. rewrite Hc.
      repeat split. left. reflexivity.
    + right. exists c'. repeat split; [right; exact Hin | exact Hk | exact Hf].
  - destruct Hs as [Hs|[c' [Hin [Hk Hs]]]].
    + rewrite Hs. unfold pick.
      destruct (numeric_candidate rows c) eqn:Hc; cbn [snd]; [|left; reflexivity].
      destruct (negb (truthy (snd st))); [|left; reflexivity].
      right. exists c. repeat split; [left; reflexivity | exact Hc].
    + right. exists c'. repeat split; [right; exact Hin | exact Hk | exact Hs].
Qed.

Lemma truthy_Str_inv (v : Value) (c : string) :
  v = Str c -> truthy v = true -> c <> "".
Proof. intros -> H. apply truthy_Str. exact H. Qed.

(** X2. Whatever chart [ChartView] builds from an array of objects, a pie
    or bar chart plots two different, named columns of the result set, the
    category never being the value column; and a line chart is built only
    from a result set of exactly one column, with x = 1..N and y the coerced
    values of that column. *)
Theorem X2_chart_columns (rows : list Row) (ov : Value) (el : Element) :
  ChartView (Some (objects rows)) ov = Normal (Some el) ->
  match el with
  | Pie numCol catCol chart | Bar numCol catCol chart =>
      exists cat num : string,
        catCol = Str cat /\ numCol = Str num
        /\ cat <> num /\ cat <> "" /\ num <> ""
        /\ In cat (columns rows) /\ In num (columns rows)
        /\ numeric_candidate rows num = true
        /\ chart = chartDataOf rows cat num
  | Line col xs values =>
      columns rows = [col]
      /\ xs = seq 1 (List.length rows)
      /\ values = numbers rows col
  end.
Proof.
  intros H.
  assert (Hne : rows <> []) by (intros ->; discriminate).
  rewrite (ChartView_objects rows ov Hne) in H.
  destruct (pick_kinds rows (columns rows) (Null, Null)) as [Hf Hs].
  fold (candidatesOf rows) in Hf, Hs. cbn [fst snd] in Hf, Hs.
  destruct (truthy (catColOf rows) && truthy (numColOf rows)) eqn:Hboth.
  - apply andb_true_iff in Hboth. destruct Hboth as [Hc Hn].
    rewrite (buildChart_pie_bar rows ov _ _ _ Hc Hn) in H.
    assert (Hnum : exists num, In num (columns rows)
                               /\ numeric_candidate rows num = true
                               /\ numColOf rows = Str num).
    { unfold numColOf in *. destruct Hs as [Hs|Hs]; [|exact Hs].
      rewrite Hs in Hn. discriminate. }
    destruct Hnum as [num [Hnin [Hnk Hnum]]].
    assert (Hcat : exists cat, In cat (columns rows) /\ cat <> num
                               /\ catColOf rows = Str cat).
    { unfold catColOf, fallback in *. fold (numColOf rows) in *.
      destruct (negb (truthy (fst (candidatesOf rows)))
                && (List.length (columns rows) =? 2)%nat
                && truthy (numColOf rows)).
      - destruct (List.find _ (columns rows)) as [c|] eqn:Hfind;
          [|discriminate].
        apply find_some in Hfind. destruct Hfind as [Hin Hneq].
        exists c. repeat split; [exact Hin|].
        rewrite Hnum in Hneq. simpl in Hneq. apply negb_true_iff in Hneq.
        apply String.eqb_neq. exact Hneq.
      - destruct Hf as [Hf|[c [Hin [Hk Hf]]]];
          [rewrite Hf in Hc; discriminate|].
        exists c. repeat split; [exact Hin | | exact Hf].
        intros ->. unfold categorical_candidate in Hk. rewrite Hnk in Hk.
        discriminate. }
    destruct Hcat as [cat [Hcin [Hneq Hcat]]].
    assert (Hshape : forall kind : Value -> Value -> ChartData -> Element,
               (kind = Pie \/ kind = Bar) ->
               el = kind (numColOf rows) (catColOf rows)
                      (chartDataOf rows (ToString (catColOf rows))
                                        (ToString (numColOf rows))) ->
               match el with
               | Pie numCol catCol chart | Bar numCol catCol chart =>
                   exists cat num : string,
                     catCol = Str cat /\ numCol = Str num
                     /\ cat <> num /\ cat <> "" /\ num <> ""
                     /\ In cat (columns rows) /\ In num (columns rows)
                     /\ numeric_candidate rows num = true
                     /\ chart = chartDataOf rows cat num
               | Line col xs values =>
                   columns rows = [col]
                   /\ xs = seq 1 (List.length rows)
                   /\ values = numbers rows col
               end).
    { intros kind Hkind ->. rewrite Hcat, Hnum. simpl.
      destruct Hkind as [-> | ->]; exists cat, num;
        repeat split; try assumption;
        first [ apply (truthy_Str_inv _ _ Hcat Hc)
              | apply (truthy_Str_inv _ _ Hnum Hn) ]. }
    destruct (strict_eq ov (Str "pie") || _); injection H as <-.
    + apply (Hshape Pie); [left|]; reflexivity.
    + apply (Hshape Bar); [right|]; reflexivity.
  - unfold buildChart in H. rewrite Hboth in H.
    destruct (negb (truthy (catColOf rows)) && truthy (numColOf rows)
              && (List.length (columns rows) =? 1)%nat) eqn:Hline;
      [|discriminate].
    apply andb_true_iff in Hline. destruct Hline as [_ Hlen].
    apply Nat.eqb_eq in Hlen.
    destruct (columns rows) as [|c [|c' cols]] eqn:Hcols; try discriminate.
    rewrite column_objects in H. simpl in H. injection H as <-.
    rewrite objects_length. repeat split.
    rewrite <- seq_shift. apply map_ext. intros i. lia.
Qed.

(** The first scenario: [block] is the category and [seats] the value. *)
Lemma X2_chart_columns_witness :
  exists cat num : string,
    Str "block" = Str cat /\ Str "seats" = Str num
    /\ cat <> num
    /\ In cat (columns seats_by_block) /\ In num (columns seats_by_block).
Proof.
  assert (H : ChartView (Some (objects seats_by_block)) Null
              = Normal (Some (Pie (Str "seats") (Str "block")
                                (chartDataOf seats_by_block "block" "seats"))))
    by by_evaluation.
  destruct (X2_chart_columns seats_by_block Null _ H)
    as [cat [num [Hc [Hn [Hneq [_ [_ [Hcin [Hnin _]]]]]]]]].
  exists cat, num. repeat split; assumption.
Defined.

(** *** Result sets that give no chart *)

(** X3. A result set in which no column is a numeric candidate gives no
    chart, whatever the override. *)
Theorem X3_no_numeric_column_no_chart (rows : list Row) (ov : Value) :
  (forall c, In c (columns rows) -> numeric_candidate rows c = false) ->
  ChartView (Some (objects rows)) ov = Normal None.
Proof.
  intros Hnone. destruct rows as [|r0 rest] eqn:Hrows; [reflexivity|].
  rewrite <- Hrows in *.
  assert (Hne : rows <> []) by (rewrite Hrows; discriminate).
  rewrite (ChartView_objects rows ov Hne).
  assert (Hnum : numColOf rows = Null).
  { unfold numColOf.
    destruct (pick_kinds rows (columns rows) (Null, Null))
      as [_ [Hs|[c [Hin [Hk _]]]]]; [exact Hs|].
    rewrite (Hnone c Hin) in Hk. discriminate. }
  unfold buildChart. rewrite Hnum. simpl.
  rewrite !andb_false_r. reflexivity.
Qed.

Lemma X3_no_numeric_column_no_chart_witness :
  ChartView (Some (objects text_only)) (Str "bar") = Normal None.
Proof.
  apply X3_no_numeric_column_no_chart.
  intros c [<-|[<-|[]]]; reflexivity.
Defined.

(** X4. A result set in which no column is a categorical candidate gives no
    chart unless it has exactly one or exactly two columns; so a single row
    with three or more columns is never charted. *)
Theorem X4_all_numeric_no_chart (rows : list Row) (ov : Value) :
  (forall c, In c (columns rows) -> numeric_candidate rows c = true) ->
  List.length (columns rows) <> 1%nat ->
  List.length (columns rows) <> 2%nat ->
  ChartView (Some (objects rows)) ov = Normal None.
Proof.
  intros Hall H1 H2. destruct rows as [|r0 rest] eqn:Hrows; [reflexivity|].
  rewrite <- Hrows in *.
  assert (Hne : rows <> []) by (rewrite Hrows; discriminate).
  rewrite (ChartView_objects rows ov Hne).
  assert (Hcat : catColOf rows = Null).
  { unfold catColOf, fallback.
    assert (Hf : fst (candidatesOf rows) = Null).
    { destruct (pick_kinds rows (columns rows) (Null, Null))
        as [[Hf|[c [Hin [Hk _]]]] _]; [exact Hf|].
      unfold categorical_candidate in Hk. rewrite (Hall c Hin) in Hk.
      discriminate. }
    rewrite Hf. apply Nat.eqb_neq in H2. rewrite H2. reflexivity. }
  unfold buildChart. rewrite Hcat. apply Nat.eqb_neq in H1. rewrite H1. simpl.
  rewrite andb_false_r. reflexivity.
Qed.

Lemma X4_all_numeric_no_chart_witness :
  ChartView (Some (objects totals)) Null = Normal None.
Proof.
  apply X4_all_numeric_no_chart; [|discriminate|discriminate].
  intros c _. apply single_row_all_numeric.
Defined.

(** *** Sampling *)

Lemma fold_left_pointwise {A B} (f g : A -> B -> A) (l : list B) :
  (forall a b, f a b = g a b) ->
  forall a, fold_left f l a = fold_left g l a.
Proof.
  intros Hfg. induction l as [|b l IH]; intros a; simpl; [reflexivity|].
  rewrite Hfg. apply IH.
Qed.

(** X5. Only the first 50 rows are sampled: two result sets of at least 10
    rows each that agree on their first 50 rows select the same columns,
    whatever their later rows hold. *)
Theorem X5_only_first_50_rows_sampled (rows1 rows2 : list Row) :
  firstn 50 rows1 = firstn 50 rows2 ->
  (10 <= List.length rows1)%nat ->
  (10 <= List.length rows2)%nat ->
  selectColumns (objects rows1) = selectColumns (objects rows2).
Proof.
  intros Hsame H1 H2.
  assert (Hne1 : rows1 <> []) by (intros ->; simpl in H1; lia).
  assert (Hne2 : rows2 <> []) by (intros ->; simpl in H2; lia).
  rewrite (selectColumns_objects rows1 Hne1), (selectColumns_objects rows2 Hne2).
  assert (Hcols : columns rows1 = columns rows2).
  { destruct rows1 as [|r1 t1]; [congruence|].
    destruct rows2 as [|r2 t2]; [congruence|].
    simpl in Hsame. injection Hsame as -> _. reflexivity. }
  assert (Hthr : forall rows : list Row,
             (10 <= List.length rows)%nat -> threshold rows = 5%nat).
  { intros rows Hlen. unfold threshold. apply Nat.min_l.
    apply (Nat.div_le_lower_bound (List.length rows) 2 5); lia. }
  assert (Hpick : forall st c, pick rows1 st c = pick rows2 st c).
  { intros st c. unfold pick, numeric_candidate, numericCountOf.
    rewrite (Hthr rows1 H1), (Hthr rows2 H2), Hsame. reflexivity. }
  assert (Hcand : candidatesOf rows1 = candidatesOf rows2).
  { unfold candidatesOf. rewrite Hcols. apply fold_left_pointwise. exact Hpick. }
  unfold catColOf, numColOf. rewrite Hcols, Hcand. reflexivity.
Qed.

(** Fifty-one rows that differ in the last one only. *)
Lemma X5_only_first_50_rows_sampled_witness :
  selectColumns (objects (fifty_and [("block", Str "Z"); ("seats", Str "full")]))
  = selectColumns (objects (fifty_and [("block", Num 7); ("seats", Num 9)])).
Proof.
  apply X5_only_first_50_rows_sampled;
    [reflexivity | vm_compute; lia | vm_compute; lia].
Defined.

(** *** The decision table, where the column names are not empty *)

(** X6. When both column variables pass the test of line 82, an override
    of "pie" gives a pie chart and an override of "bar" a bar chart whatever
    the number of rows; under any other override, [null] and "line"
    included, up to 10 rows give a pie chart and more than 10 a bar chart.
    The chart has one label and one value per row, in row order. *)
Theorem X6_pie_bar_by_override_and_count
        (rows : list Row) (ov : Value) (cols : list string)
        (catCol numCol : Value) :
  selectColumns (objects rows) = Normal (cols, catCol, numCol) ->
  truthy catCol = true ->
  truthy numCol = true ->
  let chart := chartDataOf rows (ToString catCol) (ToString numCol) in
  let result := ChartView (Some (objects rows)) ov in
  (ov = Str "pie" -> result = Normal (Some (Pie numCol catCol chart)))
  /\ (ov = Str "bar" -> result = Normal (Some (Bar numCol catCol chart)))
  /\ (ov <> Str "pie" -> ov <> Str "bar" ->
      ((List.length rows <= 10)%nat ->
       result = Normal (Some (Pie numCol catCol chart)))
      /\ ((10 < List.length rows)%nat ->
          result = Normal (Some (Bar numCol catCol chart))))
  /\ labels chart = categories rows (ToString catCol)
  /\ List.length (labels chart) = List.length rows.
Proof.
  intros Hsel Hc Hn chart result.
  assert (Hres := ChartView_pie_bar rows ov cols catCol numCol Hsel Hc Hn).
  fold chart result in Hres. rewrite Hres.
  split; [|split; [|split; [|split]]].
  - intros ->. reflexivity.
  - intros ->. simpl. rewrite andb_false_r. reflexivity.
  - intros Hp Hb.
    apply strict_eq_Str_false in Hp, Hb. rewrite Hp, Hb. simpl.
    rewrite andb_true_r.
    split; intros Hlen.
    + apply Nat.leb_le in Hlen. rewrite Hlen. reflexivity.
    + apply Nat.leb_gt in Hlen. rewrite Hlen. reflexivity.
  - reflexivity.
  - unfold chart, chartDataOf, categories. simpl. apply length_map.
Qed.

(** The first scenario under an override of "bar". *)
Lemma X6_pie_bar_by_override_and_count_witness :
  ChartView (Some (objects seats_by_block)) (Str "bar")
  = Normal (Some (Bar (Str "seats") (Str "block")
                    (chartDataOf seats_by_block "block" "seats"))).
Proof.
  assert (Hsel : selectColumns (objects seats_by_block)
                 = Normal (["block"; "seats"], Str "block", Str "seats"))
    by by_evaluation.
  apply (proj1 (proj2 (X6_pie_bar_by_override_and_count seats_by_block (Str "bar")
                         _ _ _ Hsel eq_refl eq_refl))).
  reflexivity.
Defined.

(** X7. In a result set whose columns all have a non-empty name, the
    candidate loop is a first-match search: it ends with [catCol] the first
    categorical candidate in column order and [numCol] the first numeric
    candidate, each [null] when there is none of its kind. *)
Theorem X7_first_match_with_named_columns (rows : list Row) :
  rows <> [] ->
  (forall c, In c (columns rows) -> c <> "") ->
  candidateLoop (objects rows) (columns rows)
  = Normal (match List.find (categorical_candidate rows) (columns rows) with
            | Some c => Str c
            | None => Null
            end,
            match List.find (numeric_candidate rows) (columns rows) with
            | Some c => Str c
            | None => Null
            end).
Proof.
  intros Hne Hnames.
  rewrite (candidateLoop_objects rows Hne). unfold candidatesOf.
  destruct (pick_first_match rows (columns rows) Hnames (Null, Null)) as [Hc Hn].
  cbn [fst snd truthy] in Hc, Hn.
  destruct (fold_left (pick rows) (columns rows) (Null, Null)) as [cat num].
  cbn [fst snd] in Hc, Hn. rewrite Hc, Hn. reflexivity.
Qed.

Lemma X7_first_match_with_named_columns_witness :
  candidateLoop (objects two_numeric) (columns two_numeric)
  = Normal (Null, Str "year").
Proof.
  assert (Hne : two_numeric <> []) by discriminate.
  assert (Hnames : forall c, In c (columns two_numeric) -> c <> "")
    by (intros c [<-|[<-|[]]]; discriminate).
  rewrite (X7_first_match_with_named_columns two_numeric Hne Hnames).
  reflexivity.
Defined.

(** X8. A result set whose single column has a non-empty name and is a
    numeric candidate gives a line chart under every override, with
    x = 1..N and y the values of the column coerced to numbers, [null] and
    missing values as 0; a single row does so whatever its value is. *)
Theorem X8_line_chart_of_single_named_column
        (rows : list Row) (ov : Value) (c : string) :
  columns rows = [c] ->
  c <> "" ->
  (numeric_candidate rows c = true ->
   ChartView (Some (objects rows)) ov
   = Normal (Some (Line c (seq 1 (List.length rows)) (numbers rows c))))
  /\ (List.length rows = 1%nat ->
      ChartView (Some (objects rows)) ov
      = Normal (Some (Line c [1%nat] (numbers rows c))))
  /\ (forall i r, rows !! i = Some r -> nullish (get r c) = true ->
                  numbers rows c !! i = Some 0%float).
Proof.
  intros Hcols Hc. split; [|split].
  - intros Hnum. apply line_chart_named_column; assumption.
  - intros Hlen. destruct rows as [|r [|r' rest]]; try discriminate.
    rewrite (line_chart_named_column [r] ov c Hcols Hc); [reflexivity|].
    apply single_row_all_numeric.
  - intros i r Hi Hnull. unfold numbers. rewrite list_lookup_fmap, Hi. simpl.
    unfold coalesce. rewrite Hnull. reflexivity.
Qed.

Lemma X8_line_chart_of_single_named_column_witness :
  ChartView (Some (objects counts)) (Str "pie")
  = Normal (Some (Line "count" [1; 2; 3]%nat [3%float; 7%float; 2%float])).
Proof.
  assert (Hc : "count" <> "") by discriminate.
  apply (proj1 (X8_line_chart_of_single_named_column counts (Str "pie") "count"
                  eq_refl Hc)).
  reflexivity.
Defined.

(** *** What counts as numeric *)

Lemma drop_ws_blank (l : list ascii) :
  forallb is_ws l = true -> drop_ws l = [].
Proof.
  induction l as [|a l IH]; simpl; [reflexivity|].
  intros H. apply andb_true_iff in H. destruct H as [Ha Hl].
  rewrite Ha. apply IH. exact Hl.
Qed.

Lemma In_firstn_In {A} (n : nat) (l : list A) (x : A) :
  In x (firstn n l) -> In x l.
Proof.
  revert l. induction n as [|n IH]; intros [|y l] H; simpl in *; try tauto.
  destruct H as [H|H]; [left; exact H | right; apply IH; exact H].
Qed.

Lemma StringToNumber_blank (s : string) :
  forallb is_ws (list_ascii_of_string s) = true ->
  StringToNumber s = 0%float.
Proof.
  intros H. unfold StringToNumber, trim.
  rewrite (drop_ws_blank _ H). reflexivity.
Qed.

(** X9. [isNumeric] rejects [null], [undefined] and NaN, and accepts every
    other number, both booleans, and every string that is empty or made of
    white space only, which [Number] reads as 0.  So a column that holds
    nothing but blank strings is a numeric candidate, and is plotted as
    zeros. *)
Theorem X9_isNumeric_edges :
  isNumeric Null = false
  /\ isNumeric Undefined = false
  /\ (forall b, isNumeric (Bool b) = true)
  /\ (forall x, isNumeric (Num x) = negb (isNaN x))
  /\ (forall s, forallb is_ws (list_ascii_of_string s) = true ->
                isNumeric (Str s) = true /\ ToNumber (Str s) = 0%float)
  /\ (forall (rows : list Row) (c : string),
        (forall r, In r rows ->
                   exists s, get r c = Str s
                             /\ forallb is_ws (list_ascii_of_string s) = true) ->
        numeric_candidate rows c = true
        /\ forall i, (i < List.length rows)%nat ->
                     numbers rows c !! i = Some 0%float).
Proof.
  assert (Hblank : forall s, forallb is_ws (list_ascii_of_string s) = true ->
                             isNumeric (Str s) = true
                             /\ ToNumber (Str s) = 0%float).
  { intros s H. unfold isNumeric. simpl.
    rewrite (StringToNumber_blank s H). split; reflexivity. }
  split; [reflexivity|]. split; [reflexivity|].
  split; [intros []; reflexivity|]. split; [reflexivity|].
  split; [exact Hblank|].
  intros rows c Hall. split.
  - unfold numeric_candidate, threshold, numericCountOf. apply Nat.leb_le.
    assert (Hkeep : forall l : list Row,
               (forall r, In r l -> In r rows) ->
               List.filter (fun r => isNumeric (get r c)) l = l).
    { induction l as [|r l IH]; intros Hsub; simpl; [reflexivity|].
      destruct (Hall r (Hsub r (or_introl eq_refl))) as [s [-> Hs]].
      rewrite (proj1 (Hblank s Hs)). f_equal.
      apply IH. intros r' Hr'. apply Hsub. right. exact Hr'. }
    rewrite Hkeep by (intros r Hr; apply (In_firstn_In _ _ _ Hr)).
    rewrite length_firstn.
    assert (List.length rows / 2 <= List.length rows)%nat
      by (apply Nat.Div0.div_le_upper_bound; lia).
    lia.
  - intros i Hi. unfold numbers. rewrite list_lookup_fmap.
    destruct (rows !! i) as [r|] eqn:Hr.
    + simpl. assert (Hin : In r rows).
      { apply list_elem_of_In. apply list_elem_of_lookup. exists i. exact Hr. }
      destruct (Hall r Hin) as [s [-> Hs]]. simpl.
      rewrite (StringToNumber_blank s Hs). reflexivity.
    + apply lookup_ge_None in Hr. lia.
Qed.

(** *** The colours of the slices *)

Lemma hsl_hue (i j : nat) :
  ((i * 47) mod 360 = (j * 47) mod 360)%nat -> hsl i = hsl j.
Proof. intros H. unfold hsl. rewrite H. reflexivity. Qed.

Lemma hsl_period (i : nat) : hsl (i mod 360) = hsl i.
Proof.
  apply hsl_hue.
  rewrite (Nat.Div0.mul_mod i 47 360), (Nat.Div0.mul_mod (i mod 360) 47 360).
  rewrite Nat.Div0.mod_mod. reflexivity.
Qed.

(** Strings that agree after a common prefix, or before a common suffix. *)
Lemma length_append (x s : string) :
  String.length (x ++ s) = (String.length x + String.length s)%nat.
Proof.
  induction x as [|a x IH]; simpl; [reflexivity | rewrite IH; reflexivity].
Qed.

Lemma append_inv_head (s x y : string) : s ++ x = s ++ y -> x = y.
Proof.
  induction s as [|a s IH]; intros H; [exact H|].
  injection H as H. apply IH. exact H.
Qed.

Lemma append_inv_tail (x y s : string) : x ++ s = y ++ s -> x = y.
Proof.
  revert y. induction x as [|a x IH]; intros [|b y] H.
  - reflexivity.
  - apply (f_equal String.length) in H.
    rewrite !length_append in H. simpl in H. lia.
  - apply (f_equal String.length) in H.
    rewrite !length_append in H. simpl in H. lia.
  - injection H as -> H. f_equal. apply IH. exact H.
Qed.

(** The decimal rendering tells non-negative integers apart. *)
Lemma to_uint_not_Nil (n : N) : N.to_uint n <> Decimal.Nil.
Proof.
  destruct n as [|p]; [discriminate|]. apply DecimalPos.Unsigned.to_uint_nonnil.
Qed.

Lemma dec_inj (a b : Z) : 0 <= a -> 0 <= b -> dec a = dec b -> a = b.
Proof.
  intros Ha Hb H. unfold dec in H.
  apply (f_equal NilZero.uint_of_string) in H.
  rewrite !NilZero.usu in H by apply to_uint_not_Nil.
  injection H as H. apply DecimalN.Unsigned.to_uint_inj in H. lia.
Qed.

(** 47 is invertible modulo 360, with inverse 23. *)
Lemma hue_inj (i j : nat) :
  (i < 360)%nat -> (j < 360)%nat ->
  ((i * 47) mod 360 = (j * 47) mod 360)%nat -> i = j.
Proof.
  intros Hi Hj H.
  assert (Hk : forall k : nat,
             (k < 360)%nat -> (((k * 47) mod 360 * 23) mod 360 = k)%nat).
  { intros k Hk. rewrite Nat.Div0.mul_mod_idemp_l.
    replace (k * 47 * 23)%nat with (k + (3 * k) * 360)%nat by lia.
    rewrite Nat.Div0.mod_add. apply Nat.mod_small. exact Hk. }
  rewrite <- (Hk i Hi), <- (Hk j Hj), H. reflexivity.
Qed.

(** Among the first 360 positions no two colours are the same string. *)
Lemma hsl_distinct_below_360 (i j : nat) :
  (i < 360)%nat -> (j < 360)%nat -> hsl i = hsl j -> i = j.
Proof.
  intros Hi Hj H. unfold hsl in H.
  apply append_inv_head, append_inv_tail, dec_inj in H; [|lia|lia].
  apply hue_inj; [exact Hi | exact Hj | lia].
Qed.

(** X10. The colour of a slice depends on its position modulo 360 only, and
    two positions get the same colour exactly when they differ by a multiple
    of 360: in a chart of at most 360 categories all colours are distinct.
    Every pie or bar chart has one colour per row, the colour of position
    [i] at index [i]. *)
Theorem X10_slice_colours :
  (forall i j : nat, hsl i = hsl j <-> (i mod 360 = j mod 360)%nat)
  /\ (forall (rows : list Row) (cat num : string),
        exists ds,
          datasets (chartDataOf rows cat num) = [ds]
          /\ List.length (backgroundColor ds) = List.length rows
          /\ (forall i, (i < List.length rows)%nat ->
                        backgroundColor ds !! i = Some (hsl i))
          /\ ((List.length rows <= 360)%nat ->
              List.NoDup (backgroundColor ds))).
Proof.
  assert (Hiff : forall i j : nat,
             hsl i = hsl j <-> (i mod 360 = j mod 360)%nat).
  { intros i j. split.
    - intros H. rewrite <- (hsl_period i), <- (hsl_period j) in H.
      apply hsl_distinct_below_360 in H; [exact H | |];
        apply Nat.mod_upper_bound; discriminate.
    - intros H. rewrite <- (hsl_period i), <- (hsl_period j), H. reflexivity. }
  split; [exact Hiff|].
  intros rows cat num. eexists. split; [reflexivity|]. simpl.
  split; [rewrite length_map, length_seq; reflexivity|]. split.
  - intros i Hi. rewrite list_lookup_fmap.
    rewrite (lookup_seq_lt 0 (List.length rows) i Hi). reflexivity.
  - intros Hlen.
    apply (Finite.Injective_map_NoDup_in hsl); [|apply List.seq_NoDup].
    intros i j Hi Hj Heq. apply in_seq in Hi, Hj.
    apply hsl_distinct_below_360; [lia | lia | exact Heq].
Qed.

End ChartMore.

(* ===================================================================== *)
(** ** Further properties of [getSessionId] *)
(* ===================================================================== *)

Section SessionMore.
Import Session.

(** What one call does, by the state of the storage. *)
Lemma getSessionId_blocked (w : Browser) :
  localStorage w = Blocked ->
  getSessionId w
  = (Normal (Str ("sid-" ++ slice2 (random36 w (draws w)))), next_draw w).
Proof.
  intros Hst. unfold getSessionId, try_catch, mbind, getItem. rewrite Hst.
  reflexivity.
Qed.

Lemma getSessionId_read_only (w : Browser) (items : gmap string string) :
  localStorage w = Store items false ->
  items !! "agentic_session_id" = None \/ items !! "agentic_session_id" = Some "" ->
  getSessionId w
  = (Normal (Str ("sid-" ++ slice2 (random36 w (S (draws w))))),
     next_draw (next_draw w)).
Proof.
  intros Hst Hnone.
  unfold getSessionId, try_catch, mbind, getItem. rewrite Hst.
  destruct Hnone as [-> | ->]; simpl;
    destruct (has_randomUUID w) eqn:Hu;
    unfold randomUUID, fallback_id, setItem, next_draw; simpl;
    rewrite Hst; reflexivity.
Qed.

(** X11. [getSessionId] never throws: in every state of the browser,
    storage blocked or full included, it returns a non-empty string. *)
Theorem X11_getSessionId_always_returns (w : Browser) :
  exists sid, sid <> "" /\ fst (getSessionId w) = Normal (Str sid).
Proof.
  destruct (localStorage w) as [|items writable] eqn:Hst.
  - rewrite (getSessionId_blocked w Hst). eexists. split; [|reflexivity].
    discriminate.
  - destruct (items !! "agentic_session_id") as [sid|] eqn:Hsid.
    + destruct (String.eqb_spec sid "") as [->|Hne].
      * destruct writable.
        -- rewrite (getSessionId_fresh w items Hst (or_intror Hsid)).
           eexists. split; [apply fresh_id_nonempty | reflexivity].
        -- rewrite (getSessionId_read_only w items Hst (or_intror Hsid)).
           eexists. split; [|reflexivity]. discriminate.
      * rewrite (getSessionId_persisted w items writable sid Hst Hsid Hne).
        exists sid. split; [exact Hne | reflexivity].
    + destruct writable.
      * rewrite (getSessionId_fresh w items Hst (or_introl Hsid)).
        eexists. split; [apply fresh_id_nonempty | reflexivity].
      * rewrite (getSessionId_read_only w items Hst (or_introl Hsid)).
        eexists. split; [|reflexivity]. discriminate.
Qed.

Lemma after_blocked (w : Browser) (n : nat) :
  localStorage w = Blocked ->
  localStorage (after n w) = Blocked
  /\ draws (after n w) = (draws w + n)%nat
  /\ random36 (after n w) = random36 w.
Proof.
  intros Hst. induction n as [|n [IH1 [IH2 IH3]]]; simpl.
  - repeat split; [exact Hst | lia].
  - rewrite (getSessionId_blocked _ IH1). simpl.
    repeat split; [exact IH1 | lia | exact IH3].
Qed.

(** X12. Without usable storage the identifier is not stable.  With storage
    blocked, the call number [n] returns the fallback id of the random draw
    number [n], and storage stays blocked; with storage that cannot be
    written and holds no id, a call draws twice (the id it generated is lost
    when [setItem] throws), returns the fallback id of the second draw, and
    persists nothing. *)
Theorem X12_no_storage_no_stable_id (w : Browser) :
  (localStorage w = Blocked ->
   forall n,
     fst (getSessionId (after n w))
     = Normal (Str ("sid-" ++ slice2 (random36 w (draws w + n))))
     /\ localStorage (after (S n) w) = Blocked)
  /\ (forall items,
        localStorage w = Store items false ->
        items !! "agentic_session_id" = None ->
        fst (getSessionId w)
        = Normal (Str ("sid-" ++ slice2 (random36 w (S (draws w)))))
        /\ localStorage (snd (getSessionId w)) = Store items false
        /\ draws (snd (getSessionId w)) = S (S (draws w))).
Proof.
  split.
  - intros Hst n.
    destruct (after_blocked w n Hst) as [H1 [H2 H3]].
    split.
    + rewrite (getSessionId_blocked _ H1), H2, H3. reflexivity.
    + apply (after_blocked w (S n) Hst).
  - intros items Hst Hnone.
    rewrite (getSessionId_read_only w items Hst (or_introl Hnone)). simpl.
    repeat split. exact Hst.
Qed.

(** X13. [getSessionId] touches one entry of the storage only: every other
    key keeps its value, a storage that is blocked or cannot be written
    stays as it is, and the random sources and the presence of
    [randomUUID] are not changed. *)
Theorem X13_getSessionId_frame (w : Browser) :
  has_randomUUID (snd (getSessionId w)) = has_randomUUID w
  /\ random_bytes (snd (getSessionId w)) = random_bytes w
  /\ random36 (snd (getSessionId w)) = random36 w
  /\ (draws w <= draws (snd (getSessionId w)))%nat
  /\ match localStorage w with
     | Blocked => localStorage (snd (getSessionId w)) = Blocked
     | Store items writable =>
         exists items',
           localStorage (snd (getSessionId w)) = Store items' writable
           /\ (forall k, k <> "agentic_session_id" -> items' !! k = items !! k)
           /\ (writable = false -> items' = items)
     end.
Proof.
  destruct (localStorage w) as [|items writable] eqn:Hst.
  - rewrite (getSessionId_blocked w Hst). simpl.
    repeat split; [lia | exact Hst].
  - assert (Hkeep : getSessionId w = (fst (getSessionId w), w) ->
              has_randomUUID (snd (getSessionId w)) = has_randomUUID w
              /\ random_bytes (snd (getSessionId w)) = random_bytes w
              /\ random36 (snd (getSessionId w)) = random36 w
              /\ (draws w <= draws (snd (getSessionId w)))%nat
              /\ exists items',
                   localStorage (snd (getSessionId w)) = Store items' writable
                   /\ (forall k, k <> "agentic_session_id" ->
                                 items' !! k = items !! k)
                   /\ (writable = false -> items' = items)).
    { intros ->. simpl. repeat split; [lia|]. exists items. repeat split.
      exact Hst. }
    destruct (items !! "agentic_session_id") as [sid|] eqn:Hsid.
    + destruct (String.eqb_spec sid "") as [->|Hne].
      * destruct writable.
        -- rewrite (getSessionId_fresh w items Hst (or_intror Hsid)). simpl.
           repeat split; [lia|]. eexists. split; [reflexivity|].
           split; [|discriminate].
           intros k Hk. apply lookup_insert_ne. congruence.
        -- rewrite (getSessionId_read_only w items Hst (or_intror Hsid)). simpl.
           repeat split; [lia|]. exists items. repeat split. exact Hst.
      * apply Hkeep.
        rewrite (getSessionId_persisted w items writable sid Hst Hsid Hne).
        reflexivity.
    + destruct writable.
      * rewrite (getSessionId_fresh w items Hst (or_introl Hsid)). simpl.
        repeat split; [lia|]. eexists. split; [reflexivity|].
        split; [|discriminate].
        intros k Hk. apply lookup_insert_ne. congruence.
      * rewrite (getSessionId_read_only w items Hst (or_introl Hsid)). simpl.
        repeat split; [lia|]. exists items. repeat split. exact Hst.
Qed.

End SessionMore.

(* ===================================================================== *)
(** ** Further properties of the start-up scripts *)
(* ===================================================================== *)

Section StartupMore.
Import Startup.

(** X14. The entrypoint reindexes exactly when [REINDEX_KB] is unset, empty
    or the very string "true" (so "TRUE", "1" or "yes" switch it off).  With
    the toggle off it writes and runs nothing.  It never ends with a failure
    of its own: it hands over to the command it was given, or, given none,
    exits with status 0.  Its events are the announcement, the job, and the
    failure line when the job fails, in that order. *)
Theorem X14_entrypoint_events (sys : list string -> nat)
        (env : gmap string string) (args : list string) :
  let job := ["/app/scripts/reindex_kb.sh"; "/app/knowledge_base"] in
  (toggle env = "true"
   <-> env !! "REINDEX_KB" = None \/ env !! "REINDEX_KB" = Some ""
       \/ env !! "REINDEX_KB" = Some "true")
  /\ fst (entrypoint sys env args)
     = match args with [] => Exited 0 | _ => Execd args end
  /\ snd (entrypoint sys env args)
     = (if String.eqb (toggle env) "true"
        then [Echo "Reindexing KB..."; Ran job (sys job)]
             ++ (if (sys job =? 0)%nat then []
                 else [Echo "reindex failed, continuing..."])
        else [])%list.
Proof.
  intros job. split; [|split].
  - unfold toggle, expand_default.
    destruct (env !! "REINDEX_KB") as [v|]; [|split; [tauto | reflexivity]].
    destruct (String.eqb_spec v "") as [->|Hne].
    + split; [tauto | reflexivity].
    + split.
      * intros ->. tauto.
      * intros [H|[H|H]]; congruence.
  - unfold entrypoint, toggle, script, andthen, errexit, orelse, external, echo,
      skip, exec.
    destruct (String.eqb (expand_default env "REINDEX_KB" "true") "true").
    + simpl. fold job. destruct (sys job), args; reflexivity.
    + destruct args; reflexivity.
  - unfold entrypoint, toggle, script, andthen, errexit, orelse, external, echo,
      skip, exec.
    destruct (String.eqb (expand_default env "REINDEX_KB" "true") "true").
    + simpl. fold job. destruct (sys job), args; reflexivity.
    + destruct args; reflexivity.
Qed.

(** X15. start.sh runs under [set -e]: when its [sleep 5] fails the script
    stops there with that status, and neither the reindex job nor the server
    is started; otherwise the reindex job runs once, its failure is answered
    by one line, and the script ends by replacing itself with the server,
    whatever the environment holds. *)
Theorem X15_start_sh_events (sys : list string -> nat)
        (env : gmap string string) :
  let job := ["./scripts/reindex_kb.sh"] in
  let server := ["uvicorn"; "app:app"; "--host"; "0.0.0.0"; "--port"; "8000"] in
  start_sh sys env
  = match sys ["sleep"; "5"] with
    | O =>
        (Execd server,
         [Echo "Waiting for Qdrant to be ready..."; Ran ["sleep"; "5"] 0;
          Echo "Reindexing Knowledge Base..."; Ran job (sys job)]
         ++ (if (sys job =? 0)%nat then []
             else [Echo "Reindex failed — continuing startup."])
         ++ [Echo "Starting backend..."])%list
    | S n =>
        (Exited (S n),
         [Echo "Waiting for Qdrant to be ready..."; Ran ["sleep"; "5"] (S n)])
    end.
Proof.
  intros job server.
  unfold start_sh, script, andthen, errexit, orelse, external, echo, exec.
  simpl. destruct (sys ["sleep"; "5"]); simpl; [|reflexivity].
  fold job. destruct (sys job); reflexivity.
Qed.

End StartupMore.

(* ===================================================================== *)
(** ** Properties of the chat page *)
(* ===================================================================== *)

Section ChatFacts.
Import Dom ChatPage Replies.

Lemma truthyA_not_nullish (x : Any) : truthyA x = true -> nullishA x = false.
Proof. destruct x as [[| | | |]| |]; simpl; congruence. Qed.

Lemma or_not_nullish (a b : Any) : nullishA b = false -> nullishA (or a b) = false.
Proof.
  intros Hb. unfold or. destruct (truthyA a) eqn:Ha; [|exact Hb].
  apply truthyA_not_nullish. exact Ha.
Qed.

Lemma dec_nonempty (n : Z) : dec n <> "".
Proof.
  unfold dec. destruct (N.to_uint (Z.to_N n)); simpl; discriminate.
Qed.

(** What [send] returns, by the input. *)
Lemma send_blank_or_not
      (VITE_API_URL SESSION_ID : Value) (server : Request -> Reply)
      (null_read : Exn) (st : State) :
  (trim_string (input st) = "" ->
   send VITE_API_URL SESSION_ID server null_read st = (st, None))
  /\ (trim_string (input st) <> "" ->
      exists reply : Message,
        send VITE_API_URL SESSION_ID server null_read st
        = ({| messages :=
                (messages st
                 ++ [ {| role := "user";
                         text := Prim (Str (trim_string (input st)));
                         meta := None |}; reply ])%list;
              input := "";
              loading := false |},
           Some {| url := ToString (API_BASE VITE_API_URL) ++ "/api/chat";
                   body := Obj [ ("message",
                                  Prim (Str (trim_string (input st))));
                                 ("debug", Prim (Bool true));
                                 ("session_id", Prim SESSION_ID) ] |})).
Proof.
  split.
  - intros Hblank. unfold send. rewrite Hblank. reflexivity.
  - intros Htext. unfold send.
    assert (Ht : truthy (Str (trim_string (input st))) = true).
    { simpl. destruct (String.eqb_spec (trim_string (input st)) "");
        [contradiction | reflexivity]. }
    rewrite Ht. cbn [negb].
    eexists. rewrite <- app_assoc. reflexivity.
Qed.

(** X16. [send] does nothing when the input is empty or blank: no request,
    no message, the state as it was.  Otherwise it makes exactly one request,
    carrying the trimmed text, [debug: true] and the session id, and, whatever
    the back end does (answer, HTTP error, network failure, unreadable body),
    the state ends with exactly two more messages, the user's trimmed text
    and one assistant message whose text is not [null] or [undefined], with
    the input cleared and [loading] off. *)
Theorem X16_send_two_messages_or_nothing
        (VITE_API_URL SESSION_ID : Value) (server : Request -> Reply)
        (null_read : Exn) (st : State) :
  (trim_string (input st) = "" ->
   send VITE_API_URL SESSION_ID server null_read st = (st, None))
  /\ (trim_string (input st) <> "" ->
      exists reply : Message,
        send VITE_API_URL SESSION_ID server null_read st
        = ({| messages :=
                (messages st
                 ++ [ {| role := "user";
                         text := Prim (Str (trim_string (input st)));
                         meta := None |}; reply ])%list;
              input := "";
              loading := false |},
           Some {| url := ToString (API_BASE VITE_API_URL) ++ "/api/chat";
                   body := Obj [ ("message",
                                  Prim (Str (trim_string (input st))));
                                 ("debug", Prim (Bool true));
                                 ("session_id", Prim SESSION_ID) ] |})
        /\ role reply = "assistant"
        /\ nullishA (text reply) = false).
Proof.
  split.
  - intros Hblank. unfold send. rewrite Hblank. reflexivity.
  - intros Htext. unfold send.
    assert (Ht : truthy (Str (trim_string (input st))) = true).
    { simpl. destruct (String.eqb_spec (trim_string (input st)) "");
        [contradiction | reflexivity]. }
    rewrite Ht. cbn [negb].
    eexists. split; [rewrite <- app_assoc; reflexivity|].
    destruct (post (server _)) as [err|data]; [split; reflexivity|].
    unfold answer_of.
    destruct (prop data "answer") as [a|e], (prop data "llm_raw") as [l|e'],
      (prop data "message") as [m|e'']; try (split; reflexivity).
    split; [reflexivity|]. cbn [text]. apply or_not_nullish. reflexivity.
Qed.

(** X17. The text of the assistant message, the last message after a
    [send] with a non-blank input.  For a parsed body that is an object it is
    the first truthy one of [answer], [llm_raw] and [message], and the empty
    string when none is, so an empty [answer] falls through to [llm_raw]; the
    body is kept as [meta].  For a response that is not [ok] it is
    "Error: Error: " followed by the body text, or by the status when the
    body is empty; for a rejected fetch it is "Error: " and the error's
    string; for a body that parses to [null] it is "Error: " and the engine's
    TypeError.  Error messages carry no [meta]. *)
Theorem X17_assistant_text
        (VITE_API_URL SESSION_ID : Value) (server : Request -> Reply)
        (null_read : Exn) (st : State) :
  trim_string (input st) <> "" ->
  let request :=
    {| url := ToString (API_BASE VITE_API_URL) ++ "/api/chat";
       body := Obj [ ("message", Prim (Str (trim_string (input st))));
                     ("debug", Prim (Bool true));
                     ("session_id", Prim SESSION_ID) ] |} in
  let reply :=
    List.last (messages (fst (send VITE_API_URL SESSION_ID server null_read st)))
              {| role := ""; text := Prim Undefined; meta := None |} in
  match server request with
  | Rejected err =>
      text reply = Prim (Str ("Error: " ++ Exn_toString err))
      /\ meta reply = None
  | Responded false status (inr txt) _ =>
      text reply
      = Prim (Str ("Error: Error: "
                     ++ (if String.eqb txt "" then dec (Z.of_nat status)
                         else txt)))
      /\ meta reply = None
  | Responded true _ _ (inr (Obj fields)) =>
      text reply
      = (if truthyA (lookup fields "answer") then lookup fields "answer"
         else if truthyA (lookup fields "llm_raw") then lookup fields "llm_raw"
         else if truthyA (lookup fields "message") then lookup fields "message"
         else Prim (Str ""))
      /\ meta reply = Some (Obj fields)
  | Responded true _ _ (inr (Prim Js.Null)) =>
      text reply = Prim (Str ("Error: " ++ Exn_toString null_read))
      /\ meta reply = None
  | _ => True
  end.
Proof.
  intros Htext request reply. unfold reply, send.
  assert (Ht : truthy (Str (trim_string (input st))) = true).
  { simpl. destruct (String.eqb_spec (trim_string (input st)) "");
      [contradiction | reflexivity]. }
  rewrite Ht. cbn [negb fst messages]. rewrite last_last. fold request.
  destruct (server request) as [err|[|] status tbody jbody].
  - split; reflexivity.
  - destruct jbody as [jerr|[[| | | |]|items|fields]]; try exact I;
      [split; reflexivity|].
    unfold post, answer_of, prop, ret, Dom.or. cbn [text meta].
    destruct (truthyA (lookup fields "answer")) eqn:Ea; rewrite ?Ea;
      [split; reflexivity|].
    destruct (truthyA (lookup fields "llm_raw")) eqn:El; rewrite ?El;
      [split; reflexivity|].
    destruct (truthyA (lookup fields "message")) eqn:Em; rewrite ?Em;
      split; reflexivity.
  - destruct tbody as [terr|txt]; [exact I|].
    unfold post, new_Error, Exn_toString, Dom.or. cbn [text meta name message].
    destruct (String.eqb_spec txt "") as [->|Hne]; simpl.
    + destruct (String.eqb_spec (dec (Z.of_nat status)) "") as [H|_];
        [destruct (dec_nonempty _ H) | split; reflexivity].
    + destruct (String.eqb_spec txt "") as [|_]; [contradiction|].
      cbn [negb ToStringA ToString].
      destruct (String.eqb_spec txt ""); [contradiction | split; reflexivity].
Qed.

Lemma X17_assistant_text_witness :
  text (List.last (messages (fst (send Undefined (Str "s-1") steady null_read
                                       typed)))
                  {| role := ""; text := Prim Undefined; meta := None |})
  = Prim (Str "The mess opens at 7.")
  /\ text (List.last (messages (fst (send Undefined (Str "s-1") broken null_read
                                          typed)))
                     {| role := ""; text := Prim Undefined; meta := None |})
     = Prim (Str "Error: Error: 500").
Proof.
  assert (Ht : trim_string (input typed) <> "") by (vm_compute; discriminate).
  split.
  - exact (proj1 (X17_assistant_text Undefined (Str "s-1") steady null_read
                    typed Ht)).
  - exact (proj1 (X17_assistant_text Undefined (Str "s-1") broken null_read
                    typed Ht)).
Defined.

(** X18. The chat page and the session identifier.  With working storage,
    the id that [getSessionId] returns when the page loads is the one kept
    in storage, and every request that [send] makes with it carries that id
    as [session_id], whatever the conversation and the back end. *)
Theorem X18_requests_carry_the_persisted_id
        (w : Session.Browser) (items : gmap string string) :
  Session.localStorage w = Session.Store items true ->
  exists sid items',
    sid <> ""
    /\ fst (Session.getSessionId w) = Normal (Str sid)
    /\ Session.localStorage (snd (Session.getSessionId w))
       = Session.Store items' true
    /\ items' !! "agentic_session_id" = Some sid
    /\ forall VITE_API_URL server null_read st request,
         snd (send VITE_API_URL (Str sid) server null_read st) = Some request ->
         exists fields,
           body request = Obj fields
           /\ lookup fields "session_id" = Prim (Str sid)
           /\ lookup fields "debug" = Prim (Bool true)
           /\ lookup fields "message" = Prim (Str (trim_string (input st)))
           /\ trim_string (input st) <> "".
Proof.
  intros Hst.
  destruct (getSessionId_persists w items Hst)
    as [sid [items' [Hne [Hfst [Hst' Hsid]]]]].
  exists sid, items'. repeat split; try assumption.
  intros url server null_read st request Hreq.
  destruct (String.eqb_spec (trim_string (input st)) "") as [Hblank|Htext].
  - rewrite (proj1 (send_blank_or_not url (Str sid) server null_read st) Hblank)
      in Hreq. discriminate.
  - destruct (proj2 (send_blank_or_not url (Str sid) server null_read st) Htext)
      as [reply Hsend].
    rewrite Hsend in Hreq. injection Hreq as <-.
    eexists. split; [reflexivity|]. repeat split. exact Htext.
Qed.

Lemma X18_requests_carry_the_persisted_id_witness :
  exists sid items',
    sid <> ""
    /\ fst (Session.getSessionId (Session.sample_browser ∅)) = Normal (Str sid)
    /\ Session.localStorage (snd (Session.getSessionId (Session.sample_browser ∅)))
       = Session.Store items' true
    /\ items' !! "agentic_session_id" = Some sid
    /\ forall VITE_API_URL server null_read st request,
         snd (send VITE_API_URL (Str sid) server null_read st) = Some request ->
         exists fields,
           body request = Obj fields
           /\ lookup fields "session_id" = Prim (Str sid)
           /\ lookup fields "debug" = Prim (Bool true)
           /\ lookup fields "message" = Prim (Str (trim_string (input st)))
           /\ trim_string (input st) <> "".
Proof.
  exact (X18_requests_carry_the_persisted_id (Session.sample_browser ∅) ∅
           eq_refl).
Defined.

(** *** The debug panel *)

(** A property read on a truthy value does not throw. *)
Lemma prop_truthy (meta : Any) (k : string) :
  truthyA meta = true -> exists v, prop meta k = Normal v.
Proof.
  destruct meta as [[| | | |]| |]; simpl; intros H; try discriminate;
    eexists; reflexivity.
Qed.

(** The [length] of a falsy value, read with [?.], is falsy. *)
Lemma falsy_length_falsy (x : Any) :
  truthyA x = false ->
  exists n, length_opt x = Normal n /\ truthyL n = false.
Proof.
  destruct x as [[| |[|]|f|[|c s]]| |]; simpl; intros H; try discriminate;
    eexists; split; reflexivity.
Qed.

Lemma ragUsed_two_tests (meta kb_hits sources : Any) :
  prop meta "kb_hits" = Normal kb_hits ->
  prop meta "sources" = Normal sources ->
  ragUsed meta = Normal (truthyA kb_hits || truthyA sources).
Proof.
  intros Hk Hs. unfold ragUsed. rewrite Hk. cbn [bind].
  destruct (truthyA kb_hits) eqn:Ek; [reflexivity|].
  rewrite Hs. cbn [bind]. destruct (truthyA sources) eqn:Es; [reflexivity|].
  destruct (prop meta "type") as [[v| |]|e] eqn:Et; cbn [bind orb];
    try reflexivity.
  - destruct (strict_eq v (Str "informational")); [|reflexivity].
    destruct (falsy_length_falsy kb_hits Ek) as [n [Hn Hf]].
    rewrite Hn. cbn [bind]. rewrite Hf. reflexivity.
  - destruct meta as [[| | | |]| |]; simpl in Hk, Et; discriminate.
Qed.

Lemma positive_not_zero (x : float) :
  PrimFloat.ltb 0 x = true -> PrimFloat.eqb x 0 = false.
Proof.
  rewrite FloatAxioms.ltb_spec, FloatAxioms.eqb_spec.
  replace (Prim2SF 0) with (S754_zero false) by reflexivity.
  destruct (Prim2SF x) as [sg|sg| |sg m e]; try destruct sg; cbn; congruence.
Qed.

Lemma hits_truthy (meta kb_hits : Any) :
  prop meta "kb_hits" = Normal kb_hits ->
  hits meta = Normal (Dom.or kb_hits (Arr []))
  /\ truthyA (Dom.or kb_hits (Arr [])) = true.
Proof.
  intros Hk. unfold hits. rewrite Hk. split; [reflexivity|].
  unfold Dom.or. destruct (truthyA kb_hits) eqn:Ek; [exact Ek | reflexivity].
Qed.

(** X19. The "RAG used" label of the debug panel, for the truthy [meta] the
    panel goes on with: it reads "Yes" exactly when [meta.kb_hits] or
    [meta.sources] is truthy.  The third test of line 23, on [meta.type] and
    the length of [kb_hits], never changes the outcome, since it is reached
    only with a falsy [kb_hits], whose length is falsy.  Computing the label
    does not throw. *)
Theorem X19_rag_used_label (meta : Any) :
  truthyA meta = true ->
  exists kb_hits sources,
    prop meta "kb_hits" = Normal kb_hits
    /\ prop meta "sources" = Normal sources
    /\ ragUsed meta = Normal (truthyA kb_hits || truthyA sources)
    /\ ragUsedLabel meta
       = Normal (if truthyA kb_hits || truthyA sources then "Yes" else "No").
Proof.
  intros Hm.
  destruct (prop_truthy meta "kb_hits" Hm) as [kb Hk].
  destruct (prop_truthy meta "sources" Hm) as [src Hs].
  exists kb, src. repeat split; try assumption.
  - apply ragUsed_two_tests; assumption.
  - unfold ragUsedLabel. rewrite (ragUsed_two_tests meta kb src Hk Hs).
    reflexivity.
Qed.

Lemma X19_rag_used_label_witness :
  ragUsedLabel no_hits = Normal "Yes"
  /\ ragUsedLabel (Obj [ ("type", Prim (Str "informational"));
                         ("kb_hits", Prim (Str "")) ]) = Normal "No".
Proof.
  split.
  - destruct (X19_rag_used_label no_hits eq_refl)
      as [kb [src [Hk [Hs [_ Hl]]]]].
    injection Hk as <-. injection Hs as <-. exact Hl.
  - destruct (X19_rag_used_label
                (Obj [ ("type", Prim (Str "informational"));
                       ("kb_hits", Prim (Str "")) ]) eq_refl)
      as [kb [src [Hk [Hs [_ Hl]]]]].
    injection Hk as <-. injection Hs as <-. exact Hl.
Defined.

(** X20. The two tests that guard the list of hits (line 39) and the line
    "No RAG hits returned by backend." (line 58), for a [meta] whose
    [kb_hits] can be read.  [hits] is always truthy, so both tests come down
    to its length and neither throws; they are never both true.  When
    [kb_hits] is an array, exactly one holds: the list for a non-empty array,
    the "no hits" line for an empty one.  A falsy [kb_hits] gives the "no
    hits" line.  An empty array is truthy, so with it the panel reads
    "RAG used: Yes" next to "No RAG hits returned by backend."; a truthy
    number as [kb_hits] shows neither the list nor the line. *)
Theorem X20_hits_tests (meta kb_hits : Any) :
  prop meta "kb_hits" = Normal kb_hits ->
  (exists a b, showHits meta = Normal a /\ showNoHits meta = Normal b
               /\ a && b = false)
  /\ (forall items, kb_hits = Arr items ->
        showHits meta = Normal (negb (List.length items =? 0)%nat)
        /\ showNoHits meta = Normal (List.length items =? 0)%nat)
  /\ (truthyA kb_hits = false ->
      showHits meta = Normal false /\ showNoHits meta = Normal true)
  /\ (kb_hits = Arr [] ->
      showNoHits meta = Normal true
      /\ forall sources, prop meta "sources" = Normal sources ->
                         ragUsedLabel meta = Normal "Yes")
  /\ (forall x, kb_hits = Prim (Num x) -> truthy (Num x) = true ->
        showHits meta = Normal false /\ showNoHits meta = Normal false).
Proof.
  intros Hk. destruct (hits_truthy meta kb_hits Hk) as [Hh Ht].
  assert (Hshow : forall h, hits meta = Normal h -> truthyA h = true ->
            exists n, length_of h = Normal n
                      /\ showHits meta = Normal (positive n)
                      /\ showNoHits meta = Normal (is_zero n)).
  { intros h Hhits Htr. unfold showHits, showNoHits. rewrite Hhits.
    cbn [bind]. rewrite Htr. cbn [negb].
    destruct h as [[| |b|f|s]|items|fields]; simpl in Htr; try discriminate;
      eexists; (split; [reflexivity|]); split; reflexivity. }
  destruct (Hshow _ Hh Ht) as [n [Hn [Hs Hz]]].
  split; [|split; [|split; [|split]]].
  - exists (positive n), (is_zero n). repeat split; try assumption.
    destruct n as [k|[[| |b|x|s]| |]]; cbn [positive is_zero];
      try apply andb_false_r.
    + destruct (k =? 0)%nat; reflexivity.
    + cbn [ToNumberA ToNumber].
      destruct (PrimFloat.ltb 0 x) eqn:Ex; [|reflexivity].
      rewrite (positive_not_zero x Ex). reflexivity.
  - intros items ->. unfold Dom.or in Hn. simpl in Hn. injection Hn as <-.
    split; assumption.
  - intros Hf. unfold Dom.or in Hn. rewrite Hf in Hn. simpl in Hn.
    injection Hn as <-. split; assumption.
  - intros ->. unfold Dom.or in Hn. simpl in Hn. injection Hn as <-.
    split; [exact Hz|].
    intros sources Hsrc. unfold ragUsedLabel.
    rewrite (ragUsed_two_tests meta (Arr []) sources Hk Hsrc). reflexivity.
  - intros x -> Hx. unfold Dom.or in Hn. cbn [truthyA] in Hn.
    rewrite Hx in Hn. simpl in Hn. injection Hn as <-. split; assumption.
Qed.

Lemma X20_hits_tests_witness :
  showHits no_hits = Normal false
  /\ showNoHits no_hits = Normal true
  /\ ragUsedLabel no_hits = Normal "Yes".
Proof.
  destruct (X20_hits_tests no_hits (Arr []) eq_refl)
    as [_ [Harr [_ [Hempty _]]]].
  split; [exact (proj1 (Harr [] eq_refl))|].
  split; [exact (proj1 (Hempty eq_refl))|].
  exact (proj2 (Hempty eq_refl) (Prim Undefined) eq_refl).
Defined.

End ChatFacts.

(* ===================================================================== *)
(** ** Properties of the query page *)
(* ===================================================================== *)

Section AppFacts.
Import Dom AppPage Replies.

(** The override reaches the chart only through the two comparisons of line
    98. *)
Lemma ChartView_override_ext
      (dataRows : option (list Chart.Item)) (ov ov' : Value) :
  strict_eq ov (Str "pie") = strict_eq ov' (Str "pie") ->
  strict_eq ov (Str "bar") = strict_eq ov' (Str "bar") ->
  Chart.ChartView dataRows ov = Chart.ChartView dataRows ov'.
Proof.
  intros Hpie Hbar. unfold Chart.ChartView.
  destruct dataRows as [rows|]; [|reflexivity].
  destruct (List.length rows =? 0)%nat; [reflexivity|].
  destruct (Chart.selectColumns rows) as [[[cols cat] num]|e]; [|reflexivity].
  cbn [bind]. unfold Chart.buildChart. rewrite Hpie, Hbar. reflexivity.
Qed.

(** X21. One submission of a question, in both variants of the page.
    [submitQuery], which turns [loading] off in a [finally] clause, ends in
    the same state as [submitQuestion], which does it after the
    [try]/[catch]; neither throws.  In the final state [loading] is off and
    the question is unchanged.  On success [result] is the parsed body and
    [error] is [null]; on failure [result] is [null] and [error] is a
    string, whatever the state held before, so an earlier result or error
    never survives.  A response that is not [ok] gives its body text as the
    error, or the status in decimal when the body is empty: never the empty
    string. *)
Theorem X21_submit_outcome
        (VITE_API_URL : Value) (server : Request -> Reply) (st : State) :
  submitQuery VITE_API_URL server st = submitQuestion VITE_API_URL server st
  /\ exists st',
       submitQuestion VITE_API_URL server st = inr st'
       /\ loading st' = false
       /\ question st' = question st
       /\ match post (server (request_of VITE_API_URL st)) with
          | inr data => result st' = data /\ error st' = Prim Null
          | inl err =>
              result st' = Prim Null
              /\ error st'
                 = Prim (Str (if String.eqb (message err) ""
                              then Exn_toString err else message err))
          end
       /\ match server (request_of VITE_API_URL st) with
          | Responded false status (inr txt) _ =>
              error st'
              = Prim (Str (if String.eqb txt "" then dec (Z.of_nat status)
                           else txt))
              /\ truthyA (error st') = true
          | _ => True
          end.
Proof.
  unfold submitQuery, submitQuestion, seq_block, try_finally, try_catch,
    begin, ask.
  assert (Hreq : request_of VITE_API_URL
                   (setResult (Prim Null)
                      (setError (Prim Null) (setLoading true st)))
                 = request_of VITE_API_URL st) by reflexivity.
  rewrite Hreq.
  assert (Herr : forall err st0,
            error (on_error err st0)
            = Prim (Str (if String.eqb (message err) ""
                         then Exn_toString err else message err))).
  { intros err st0. unfold on_error, setError, Dom.or. cbn [error truthyA truthy].
    destruct (String.eqb (message err) ""); reflexivity. }
  destruct (server (request_of VITE_API_URL st))
    as [err|[|] status tbody jbody] eqn:Hsrv; cbn [post].
  - split; [reflexivity|]. eexists. split; [reflexivity|].
    cbn [loading question result setLoading].
    repeat split. apply Herr.
  - destruct jbody as [jerr|data].
    + split; [reflexivity|]. eexists. split; [reflexivity|].
      cbn [loading question result setLoading].
      repeat split. apply Herr.
    + split; [reflexivity|]. eexists. split; [reflexivity|].
      repeat split.
  - destruct tbody as [terr|txt].
    + split; [reflexivity|]. eexists. split; [reflexivity|].
      cbn [loading question result setLoading].
      repeat split. apply Herr.
    + split; [reflexivity|]. eexists. split; [reflexivity|].
      cbn [loading question result setLoading].
      assert (Hm : message (new_Error (Dom.or (Prim (Str txt))
                                         (Prim (Str (dec (Z.of_nat status))))))
                   = if String.eqb txt "" then dec (Z.of_nat status) else txt).
      { unfold new_Error, Dom.or. cbn [message truthyA truthy].
        destruct (String.eqb txt ""); reflexivity. }
      assert (Hne : (if String.eqb txt "" then dec (Z.of_nat status) else txt)
                    <> "").
      { destruct (String.eqb_spec txt "") as [|Hne]; [apply dec_nonempty|exact Hne]. }
      assert (Hfinal : error (on_error
                         (new_Error (Dom.or (Prim (Str txt))
                                       (Prim (Str (dec (Z.of_nat status))))))
                         (setResult (Prim Null)
                            (setError (Prim Null) (setLoading true st))))
                       = Prim (Str (if String.eqb txt ""
                                    then dec (Z.of_nat status) else txt))).
      { rewrite Herr, Hm.
        destruct (String.eqb_spec
                    (if String.eqb txt "" then dec (Z.of_nat status) else txt)
                    ""); [contradiction | reflexivity]. }
      repeat split.
      * apply Herr.
      * exact Hfinal.
      * cbn [error setLoading]. rewrite Hfinal. cbn [truthyA truthy].
        destruct (String.eqb_spec
                    (if String.eqb txt "" then dec (Z.of_nat status) else txt)
                    ""); [contradiction | reflexivity].
Qed.

(** X22. The "Force chart" select and the chart it drives.  What the select
    shows for the override that a choice has set is that choice; an override
    that is [null] or a non-empty string is the one set by choosing what the
    select shows for it.  Choosing "Auto" sets the override to [null].  The
    chart depends on the override only through the comparisons with "pie" and
    "bar", so the choice "Line" draws, on every result set, exactly what
    "Auto" draws, and so does any choice other than "pie" and "bar". *)
Theorem X22_select_and_chart :
  (forall s : string, select_value (on_select s) = Str s)
  /\ on_select "" = Null
  /\ (forall ov : Value,
        ov = Null \/ (exists s, ov = Str s /\ s <> "") ->
        on_select (ToString (select_value ov)) = ov)
  /\ (forall dataRows : option (list Chart.Item),
        Chart.ChartView dataRows (on_select "line")
        = Chart.ChartView dataRows (on_select ""))
  /\ (forall (dataRows : option (list Chart.Item)) (s : string),
        s <> "pie" -> s <> "bar" ->
        Chart.ChartView dataRows (on_select s)
        = Chart.ChartView dataRows Null).
Proof.
  assert (Hsel : forall s, s <> "" -> on_select s = Str s).
  { intros s Hs. unfold on_select. cbn [truthy].
    destruct (String.eqb_spec s ""); [contradiction | reflexivity]. }
  assert (Hany : forall (dataRows : option (list Chart.Item)) (s : string),
             s <> "pie" -> s <> "bar" ->
             Chart.ChartView dataRows (on_select s)
             = Chart.ChartView dataRows Null).
  { intros dataRows s Hpie Hbar.
    destruct (String.eqb_spec s "") as [->|Hs]; [reflexivity|].
    rewrite (Hsel s Hs). apply ChartView_override_ext; cbn [strict_eq].
    - destruct (String.eqb_spec s "pie"); [contradiction | reflexivity].
    - destruct (String.eqb_spec s "bar"); [contradiction | reflexivity]. }
  split; [|split; [reflexivity|split; [|split]]].
  - intros s. unfold on_select, select_value. cbn [truthy].
    destruct (String.eqb_spec s "") as [->|Hs]; [reflexivity|].
    cbn [negb truthy]. destruct (String.eqb_spec s ""); [contradiction|].
    reflexivity.
  - intros ov [->|[s [-> Hs]]]; [reflexivity|].
    unfold select_value. cbn [truthy].
    destruct (String.eqb_spec s ""); [contradiction|]. cbn [negb ToString].
    apply Hsel. exact Hs.
  - intros dataRows. rewrite (Hany dataRows "line"); [reflexivity | |];
      discriminate.
  - exact Hany.
Qed.

End AppFacts.
